(** * import_phpipam_to_netbox: a shallow embedding of [PhpIpamImporter]

    The script reads a phpIPAM spreadsheet export row by row, recognises
    subnet header rows, the column title row and address rows, and creates
    the missing prefixes and addresses in NetBox through [pynetbox].

    What is embedded: [parse_subnet_header], [create_prefix],
    [create_ip_address] and the loop of [process_data], with the importer's
    [stats] dictionary, the exceptions the code catches (and the one it does
    not), and the calls issued to the NetBox client; near the end of the
    file, [connect_netbox], [read_phpipam_export] and [main].

    What is outside the repository and therefore taken as an interface:
    the [ipaddress] module ([ip_address], [ip_network]), and the [pynetbox]
    endpoints ([prefixes.get], [prefixes.create], [ip_addresses.get],
    [ip_addresses.create]).  Console output and [VERBOSE] have no effect on
    the state and are left out.

    Python strings are modelled by [string]; a character stands for its code
    point, so the model covers code points below 256. *)

From Stdlib Require Import String Ascii List Bool Arith Lia.
From stdpp Require Import gmap strings.
Import ListNotations.
Open Scope string_scope.

(** ** Python string primitives *)

Module PyStr.

(** [str.isspace] on one character, for code points below 256. *)
Definition is_space (c : ascii) : bool :=
  let n := nat_of_ascii c in
  (Nat.leb 9 n && Nat.leb n 13) || (Nat.leb 28 n && Nat.leb n 32)
  || Nat.eqb n 133 || Nat.eqb n 160.

(** [str.lower] on one character, for code points below 256. *)
Definition lower_char (c : ascii) : ascii :=
  let n := nat_of_ascii c in
  if (Nat.leb 65 n && Nat.leb n 90)
     || (Nat.leb 192 n && Nat.leb n 222 && negb (Nat.eqb n 215))
  then ascii_of_nat (n + 32) else c.

(** [s.lower()] *)
Fixpoint lower (s : string) : string :=
  match s with
  | EmptyString => EmptyString
  | String c s' => String (lower_char c) (lower s')
  end.

(** [s.lstrip()] *)
Fixpoint lstrip (s : string) : string :=
  match s with
  | EmptyString => EmptyString
  | String c s' => if is_space c then lstrip s' else s
  end.

(** [s.rstrip()] *)
Fixpoint rstrip (s : string) : string :=
  match s with
  | EmptyString => EmptyString
  | String c s' =>
      match rstrip s' with
      | EmptyString => if is_space c then EmptyString else String c EmptyString
      | r => String c r
      end
  end.

(** [s.strip()] *)
Definition strip (s : string) : string := rstrip (lstrip s).

(** [s.startswith(p)] *)
Fixpoint startswith (p s : string) : bool :=
  match p, s with
  | EmptyString, _ => true
  | String _ _, EmptyString => false
  | String a p', String b s' => Ascii.eqb a b && startswith p' s'
  end.

(** [sub in s] *)
Fixpoint contains (sub s : string) : bool :=
  startswith sub s ||
  match s with
  | EmptyString => false
  | String _ s' => contains sub s'
  end.

(** The scan of [s.split(sep)] for a non-empty [sep]: [skip] counts the
    characters of a separator still to be passed over, [cur] is the segment
    read so far. *)
Fixpoint split_scan (sep s : string) (skip : nat) (cur : string) : list string :=
  match s with
  | EmptyString => [cur]
  | String c s' =>
      match skip with
      | S k => split_scan sep s' k cur
      | O =>
          if startswith sep s
          then cur :: split_scan sep s' (String.length sep - 1) EmptyString
          else split_scan sep s' 0 (cur ++ String c EmptyString)
      end
  end.

(** [s.split(sep)], [sep] not empty. *)
Definition split (sep s : string) : list string := split_scan sep s 0 EmptyString.

(** [sep.join(parts)] *)
Fixpoint join (sep : string) (parts : list string) : string :=
  match parts with
  | [] => EmptyString
  | [x] => x
  | x :: rest => x ++ sep ++ join sep rest
  end.

(** [s[:n]] *)
Fixpoint slice_to (n : nat) (s : string) : string :=
  match n, s with
  | O, _ => EmptyString
  | _, EmptyString => EmptyString
  | S n', String c s' => String c (slice_to n' s')
  end.
Arguments slice_to : simpl never.

(** [s[n:]] *)
Fixpoint slice_from (n : nat) (s : string) : string :=
  match n, s with
  | O, _ => s
  | _, EmptyString => EmptyString
  | S n', String _ s' => slice_from n' s'
  end.

(** [s * n] *)
Fixpoint repeat (s : string) (n : nat) : string :=
  match n with
  | O => EmptyString
  | S n' => s ++ repeat s n'
  end.

(** Truth value of a string: [bool(s)]. *)
Definition nonempty (s : string) : bool :=
  match s with EmptyString => false | String _ _ => true end.

End PyStr.

(** ** Python values and exceptions *)

(** A cell of the data frame, as far as the importer can tell cells apart:
    a [str]; any other value that is not null, such as a number, a bool or a
    timestamp (with its [str()] text and its truth value); the float NaN
    that pandas puts in an empty cell; [None]. *)
Inductive PyVal : Type :=
| VStr (s : string)
| VOther (text : string) (truth : bool)
| VNaN
| VNone.

(** [isinstance(v, str)] *)
Definition isinstance_str (v : PyVal) : bool :=
  match v with VStr _ => true | _ => false end.

(** [pd.notna(v)] *)
Definition pd_notna (v : PyVal) : bool :=
  match v with VNaN | VNone => false | _ => true end.

(** [str(v)] *)
Definition py_str (v : PyVal) : string :=
  match v with
  | VStr s => s
  | VOther text _ => text
  | VNaN => "nan"
  | VNone => "None"
  end.

(** [bool(v)] *)
Definition truthy (v : PyVal) : bool :=
  match v with
  | VStr s => PyStr.nonempty s
  | VOther _ truth => truth
  | VNaN => true
  | VNone => false
  end.

(** The exception classes the code can meet; all derive from [Exception]. *)
Inductive PyExc : Type :=
| ValueError
| AttributeError
| IndexError
| OtherException.

Inductive Result (A : Type) : Type :=
| Ok (a : A)
| Raise (e : PyExc).
Arguments Ok {A} a.
Arguments Raise {A} e.

(** ** The [ipaddress] module *)

Inductive IPVersion : Type := V4 | V6.

(** [ip_address(s)] returns an address object, of which the code reads
    [version], or raises [ValueError] ([None] here); [ip_network(s)] returns
    or raises [ValueError] ([false] here).  The three laws are facts of the
    module: an address literal has no ['/'], it has a ['.'] or a [':'], and
    the empty string is no network. *)
Record IpAddressModule : Type := {
  ip_address : string -> option IPVersion;
  ip_network : string -> bool;
  ip_address_no_slash :
    forall s v, ip_address s = Some v -> PyStr.contains "/" s = false;
  ip_address_separator :
    forall s v, ip_address s = Some v ->
                PyStr.contains "." s || PyStr.contains ":" s = true;
  ip_network_not_empty : ip_network "" = false
}.

(** ** The NetBox client *)

(** The four [pynetbox] endpoints the importer calls, over a client state
    [S] and records [R]; a call returns or raises, and may change the state
    either way.  [get] returns a record, which is true in an [if], or
    [None]. *)
Record NetBox (S R : Type) : Type := {
  prefixes_get : string -> S -> Result (option R) * S;
  prefixes_create : string -> string -> string -> S -> Result R * S;
  ip_addresses_get : string -> S -> Result (option R) * S;
  ip_addresses_create : string -> PyVal -> string -> string -> S -> Result R * S
}.
Arguments prefixes_get {S R} _ _ _.
Arguments prefixes_create {S R} _ _ _ _ _.
Arguments ip_addresses_get {S R} _ _ _.
Arguments ip_addresses_create {S R} _ _ _ _ _ _.

(** [get] finds the prefix, or the address, in the client state [s]. *)
Definition prefix_found {S R : Type} (pynetbox : NetBox S R)
    (prefix : string) (s : S) : Prop :=
  exists r, fst (prefixes_get pynetbox prefix s) = Ok (Some r).

Definition address_found {S R : Type} (pynetbox : NetBox S R)
    (address : string) (s : S) : Prop :=
  exists r, fst (ip_addresses_get pynetbox address s) = Ok (Some r).

(** The contract of a client that lookup-before-write relies on: a [get]
    answers and leaves the state as it is; a [create] answers, after it
    [get] finds what was created, and whatever [get] found before it still
    finds. *)
Record LookupBeforeWrite {S R : Type} (pynetbox : NetBox S R) : Prop := {
  prefixes_get_reads :
    forall prefix s, exists o, prefixes_get pynetbox prefix s = (Ok o, s);
  ip_addresses_get_reads :
    forall address s, exists o, ip_addresses_get pynetbox address s = (Ok o, s);
  prefixes_create_stores :
    forall prefix description status s,
    exists r s',
      prefixes_create pynetbox prefix description status s = (Ok r, s')
      /\ prefix_found pynetbox prefix s'
      /\ (forall p, prefix_found pynetbox p s -> prefix_found pynetbox p s')
      /\ (forall a, address_found pynetbox a s -> address_found pynetbox a s');
  ip_addresses_create_stores :
    forall address dns_name description status s,
    exists r s',
      ip_addresses_create pynetbox address dns_name description status s
      = (Ok r, s')
      /\ address_found pynetbox address s'
      /\ (forall p, prefix_found pynetbox p s -> prefix_found pynetbox p s')
      /\ (forall a, address_found pynetbox a s -> address_found pynetbox a s')
}.

(** A call issued to the client, with its keyword arguments. *)
Inductive Call : Type :=
| PrefixesGet (prefix : string)
| PrefixesCreate (prefix description status : string)
| IpAddressesGet (address : string)
| IpAddressesCreate (address : string) (dns_name : PyVal) (description status : string).

(** ** The importer *)

(** [self.stats] *)
Record Stats : Type := {
  prefixes_created : nat;
  prefixes_skipped : nat;
  ips_created : nat;
  ips_skipped : nat;
  errors : nat
}.

Definition init_stats : Stats :=
  {| prefixes_created := 0; prefixes_skipped := 0;
     ips_created := 0; ips_skipped := 0; errors := 0 |}.

(** The importer object: the state behind [self.nb], [self.stats], and the
    calls issued to the client so far (a ghost field, oldest call first). *)
Record Importer (S : Type) : Type := {
  nb : S;
  stats : Stats;
  calls : list Call
}.
Arguments nb {S} _.
Arguments stats {S} _.
Arguments calls {S} _.

(** [PhpIpamImporter()] with the client connected. *)
Definition init_importer {S : Type} (s : S) : Importer S :=
  {| nb := s; stats := init_stats; calls := [] |}.

(** What [create_prefix] returns: a record, [True] or [None]. *)
Inductive PrefixRet (R : Type) : Type :=
| RetRecord (r : R)
| RetTrue
| RetNone.
Arguments RetRecord {R} r.
Arguments RetTrue {R}.
Arguments RetNone {R}.

(** The local variables of [process_data]'s loop. *)
Record LoopVars : Type := {
  current_subnet : option string;
  current_description : option string
}.

(** A data frame: its rows, each the list of its cells. *)
Definition DataFrame : Type := list (list PyVal).

(** A row of a data frame that was not read from a spreadsheet may hold,
    in its first column, a list or an array instead of a scalar.  Of such a
    cell the loop body of [process_data] uses two things: [str(first_col)],
    here [text], and the truth value of [pd.notna(first_col)] in the [if] of
    line 205.  For a list or an array [pd.notna] answers element by element
    with an array of booleans; the truth value of that array is the one of
    its only element, and with more than one element asking for it raises
    [ValueError]: [notna_truth] is [None] then.  The other cells of the row
    are scalars, [rest]. *)
Inductive AnyRow : Type :=
| ScalarRow (row : list PyVal)
| ArrayFirst (text : string) (notna_truth : option bool) (rest : list PyVal).

Definition AnyFrame : Type := list AnyRow.

Section Importer.

Context {S R : Type}.
Variable ipaddress : IpAddressModule.
Variable pynetbox : NetBox S R.
(** The module constant [DRY_RUN]. *)
Variable DRY_RUN : bool.

(** Computations of a method: they read and change the importer, and
    return or raise. *)
Definition M (A : Type) : Type := Importer S -> Result A * Importer S.

Definition ret {A} (a : A) : M A := fun w => (Ok a, w).

Definition raise {A} (e : PyExc) : M A := fun w => (Raise e, w).

Definition bind {A B} (m : M A) (f : A -> M B) : M B :=
  fun w =>
    match m w with
    | (Ok a, w') => f a w'
    | (Raise e, w') => (Raise e, w')
    end.

(** [try: m  except ...: h e]; [h e = None] when no clause matches [e]. *)
Definition try_except {A} (m : M A) (h : PyExc -> option (M A)) : M A :=
  fun w =>
    match m w with
    | (Ok a, w') => (Ok a, w')
    | (Raise e, w') =>
        match h e with
        | Some k => k w'
        | None => (Raise e, w')
        end
    end.

Notation "x <- m ;; k" := (bind m (fun x => k))
  (at level 100, m at next level, right associativity).
Notation "m ;;; k" := (bind m (fun _ => k))
  (at level 100, right associativity).

(** [self.stats[...] += 1] *)
Definition update_stats (f : Stats -> Stats) : M unit :=
  fun w => (Ok tt, {| nb := nb w; stats := f (stats w); calls := calls w |}).

Definition incr_prefixes_created (st : Stats) : Stats :=
  {| prefixes_created := Datatypes.S (prefixes_created st);
     prefixes_skipped := prefixes_skipped st;
     ips_created := ips_created st; ips_skipped := ips_skipped st;
     errors := errors st |}.

Definition incr_prefixes_skipped (st : Stats) : Stats :=
  {| prefixes_created := prefixes_created st;
     prefixes_skipped := Datatypes.S (prefixes_skipped st);
     ips_created := ips_created st; ips_skipped := ips_skipped st;
     errors := errors st |}.

Definition incr_ips_created (st : Stats) : Stats :=
  {| prefixes_created := prefixes_created st;
     prefixes_skipped := prefixes_skipped st;
     ips_created := Datatypes.S (ips_created st); ips_skipped := ips_skipped st;
     errors := errors st |}.

Definition incr_ips_skipped (st : Stats) : Stats :=
  {| prefixes_created := prefixes_created st;
     prefixes_skipped := prefixes_skipped st;
     ips_created := ips_created st; ips_skipped := Datatypes.S (ips_skipped st);
     errors := errors st |}.

Definition incr_errors (st : Stats) : Stats :=
  {| prefixes_created := prefixes_created st;
     prefixes_skipped := prefixes_skipped st;
     ips_created := ips_created st; ips_skipped := ips_skipped st;
     errors := Datatypes.S (errors st) |}.

(** A call of a client endpoint: it is logged, and the client's answer and
    new state are taken over. *)
Definition client_call {A} (c : Call) (op : S -> Result A * S) : M A :=
  fun w =>
    let (r, s') := op (nb w) in
    (r, {| nb := s'; stats := stats w; calls := calls w ++ [c] |}).

(** [self.nb.ipam.prefixes.get(prefix=subnet)] *)
Definition nb_prefixes_get (subnet : string) : M (option R) :=
  client_call (PrefixesGet subnet) (prefixes_get pynetbox subnet).

(** [self.nb.ipam.prefixes.create(prefix=.., description=.., status=..)] *)
Definition nb_prefixes_create (subnet description status : string) : M R :=
  client_call (PrefixesCreate subnet description status)
              (prefixes_create pynetbox subnet description status).

(** [self.nb.ipam.ip_addresses.get(address=..)] *)
Definition nb_ip_addresses_get (address : string) : M (option R) :=
  client_call (IpAddressesGet address) (ip_addresses_get pynetbox address).

(** [self.nb.ipam.ip_addresses.create(address=.., dns_name=.., description=.., status=..)] *)
Definition nb_ip_addresses_create (address : string) (dns_name : PyVal)
    (description status : string) : M R :=
  client_call (IpAddressesCreate address dns_name description status)
              (ip_addresses_create pynetbox address dns_name description status).

(** [ip_address(s)] as a computation: the version, or [ValueError]. *)
Definition py_ip_address (s : string) : M IPVersion :=
  match ip_address ipaddress s with
  | Some v => ret v
  | None => raise ValueError
  end.

(** [parse_subnet_header(header)]: [Some (subnet, description)], or [None]
    for the pair [(None, None)]. *)
Definition parse_subnet_header (header : PyVal) : option (string * string) :=
  match header with
  | VStr h =>
      if negb (PyStr.contains "/" h) then None
      else
        let parts := PyStr.split " - " h in
        if Nat.ltb (length parts) 2 then None
        else
          let subnet := PyStr.strip (hd "" parts) in
          let description := PyStr.join " - " (tl parts) in
          if ip_network ipaddress subnet then Some (subnet, description)
          else None
  | _ => None
  end.

(** [create_prefix(subnet, description)] *)
Definition create_prefix (subnet description : string) : M (PrefixRet R) :=
  try_except
    (if negb DRY_RUN then
       existing <- nb_prefixes_get subnet ;;
       match existing with
       | Some r =>
           update_stats incr_prefixes_skipped ;;;
           ret (RetRecord r)
       | None =>
           prefix <- nb_prefixes_create subnet
                       (if PyStr.nonempty description
                        then PyStr.slice_to 200 description else "")
                       "active" ;;
           update_stats incr_prefixes_created ;;;
           ret (RetRecord prefix)
       end
     else
       update_stats incr_prefixes_created ;;;
       ret RetTrue)
    (fun _ => Some (update_stats incr_errors ;;; ret RetNone)).

(** The list [desc_parts] built in [create_ip_address]. *)
Definition desc_parts (description note : PyVal) : list string :=
  (if pd_notna description && truthy description
   then [py_str description] else [])
  ++ (if pd_notna note && truthy note
      then ["Note: " ++ py_str note] else []).

(** [" | ".join(desc_parts) if desc_parts else ""] *)
Definition full_description (description note : PyVal) : string :=
  match desc_parts description note with
  | [] => ""
  | parts => PyStr.join " | " parts
  end.

(** [f"{ip}/32" if ip_obj.version == 4 else f"{ip}/128"] *)
Definition ip_with_mask (ip : string) (version : IPVersion) : string :=
  match version with
  | V4 => ip ++ "/32"
  | V6 => ip ++ "/128"
  end.

(** [create_ip_address(ip, hostname, description, mac, owner, device, port, note)] *)
Definition create_ip_address (ip : string)
    (hostname description mac owner device port note : PyVal) : M unit :=
  try_except
    (ip_obj <- py_ip_address ip ;;
     let key := ip_with_mask ip ip_obj in
     if negb DRY_RUN then
       existing <- nb_ip_addresses_get key ;;
       match existing with
       | Some _ => update_stats incr_ips_skipped
       | None =>
           let full := full_description description note in
           nb_ip_addresses_create key
             (if pd_notna hostname then hostname else VStr "")
             (if PyStr.nonempty full then PyStr.slice_to 200 full else "")
             "active" ;;;
           update_stats incr_ips_created
       end
     else update_stats incr_ips_created)
    (fun e =>
       match e with
       | ValueError => Some (ret tt)
       | _ => Some (update_stats incr_errors)
       end).

(** [row.iloc[i]] *)
Definition iloc (row : list PyVal) (i : nat) : M PyVal :=
  match nth_error row i with
  | Some v => ret v
  | None => raise IndexError
  end.

(** [row.iloc[i] if len(row) > i else None] *)
Definition iloc_or_none (row : list PyVal) (i : nat) : M PyVal :=
  if Nat.ltb i (length row) then iloc row i else ret VNone.

(** The tail of the loop body of [process_data], from "Check if this is an
    IP address row" on. *)
Definition address_row (row : list PyVal) (first_col : PyVal) : M unit :=
  _second_col <- iloc_or_none row 1 ;;
  if pd_notna first_col then
    try_except
      (_ip_obj <- py_ip_address (PyStr.strip (py_str first_col)) ;;
       let ip := PyStr.strip (py_str first_col) in
       _ip_state <- iloc_or_none row 1 ;;
       description <- iloc_or_none row 2 ;;
       hostname <- iloc_or_none row 3 ;;
       mac <- iloc_or_none row 4 ;;
       owner <- iloc_or_none row 5 ;;
       device <- iloc_or_none row 6 ;;
       port <- iloc_or_none row 7 ;;
       note <- iloc_or_none row 8 ;;
       create_ip_address ip hostname description mac owner device port note)
      (fun e =>
         match e with
         | ValueError | AttributeError => Some (ret tt)
         | _ => None
         end)
  else ret tt.

(** The loop body of [process_data] for one row. *)
Definition process_row (row : list PyVal) (vars : LoopVars) : M LoopVars :=
  first_col <- iloc row 0 ;;
  match first_col with
  | VStr text =>
      let not_a_header : M LoopVars :=
        if String.eqb (PyStr.lower text) "ip address" then ret vars
        else address_row row first_col ;;; ret vars in
      match parse_subnet_header first_col with
      | Some (subnet, description) =>
          if PyStr.nonempty subnet then
            create_prefix subnet description ;;;
            ret {| current_subnet := Some subnet;
                   current_description := Some description |}
          else not_a_header
      | None => not_a_header
      end
  | _ => address_row row first_col ;;; ret vars
  end.

(** [for idx, row in df.iterrows(): ...] *)
Fixpoint process_rows (rows : DataFrame) (vars : LoopVars) : M LoopVars :=
  match rows with
  | [] => ret vars
  | row :: rest => vars' <- process_row row vars ;; process_rows rest vars'
  end.

(** [process_data(df)] *)
Definition process_data (df : DataFrame) : M unit :=
  process_rows df {| current_subnet := None; current_description := None |} ;;;
  ret tt.

(** The loop body of [process_data] on any row.  A first cell that holds a
    list or an array is no [str], so lines 187 to 199 are passed over; line
    202 reads the second column; line 205 asks for the truth value of
    [pd.notna(first_col)], outside the [try] of line 206; the [try] block is
    the one of [address_row], on [str(first_col)].  In the reads of columns
    1 to 8 the list stands in column 0 as an object that is not a string;
    these reads never return it. *)
Definition process_row_any (r : AnyRow) (vars : LoopVars) : M LoopVars :=
  match r with
  | ScalarRow row => process_row row vars
  | ArrayFirst text notna_truth rest =>
      let row := VOther text true :: rest in
      _second_col <- iloc_or_none row 1 ;;
      match notna_truth with
      | None => raise ValueError
      | Some true =>
          try_except
            (_ip_obj <- py_ip_address (PyStr.strip text) ;;
             let ip := PyStr.strip text in
             _ip_state <- iloc_or_none row 1 ;;
             description <- iloc_or_none row 2 ;;
             hostname <- iloc_or_none row 3 ;;
             mac <- iloc_or_none row 4 ;;
             owner <- iloc_or_none row 5 ;;
             device <- iloc_or_none row 6 ;;
             port <- iloc_or_none row 7 ;;
             note <- iloc_or_none row 8 ;;
             create_ip_address ip hostname description mac owner device port
               note)
            (fun e =>
               match e with
               | ValueError | AttributeError => Some (ret tt)
               | _ => None
               end) ;;;
          ret vars
      | Some false => ret vars
      end
  end.

(** [for idx, row in df.iterrows(): ...] on any rows *)
Fixpoint process_rows_any (rows : AnyFrame) (vars : LoopVars) : M LoopVars :=
  match rows with
  | [] => ret vars
  | r :: rest =>
      vars' <- process_row_any r vars ;; process_rows_any rest vars'
  end.

(** [process_data(df)] on any rows *)
Definition process_data_any (df : AnyFrame) : M unit :=
  process_rows_any df
    {| current_subnet := None; current_description := None |} ;;;
  ret tt.

(** *** The rows and intents of the specification, read off the code *)

(** The branch of the loop body a row takes. *)
Inductive RowKind : Type :=
| SubnetHeader (cidr description : string)
| ColumnTitle
| AddressData (address : string)
    (stateLabel description hostname mac owner device port note : PyVal)
| Noise.

(** The cell at column [i], [None] when the row is too short. *)
Definition cell (row : list PyVal) (i : nat) : PyVal := nth i row VNone.

(** The tests of the loop body in the order the code makes them; an empty
    row has no [row.iloc[0]]. *)
Definition classify (row : list PyVal) : Result RowKind :=
  match row with
  | [] => Raise IndexError
  | first_col :: _ =>
      let as_address : RowKind :=
        if pd_notna first_col then
          match ip_address ipaddress (PyStr.strip (py_str first_col)) with
          | Some _ =>
              AddressData (PyStr.strip (py_str first_col))
                (cell row 1) (cell row 2) (cell row 3) (cell row 4)
                (cell row 5) (cell row 6) (cell row 7) (cell row 8)
          | None => Noise
          end
        else Noise in
      let not_a_header : RowKind :=
        if isinstance_str first_col
           && String.eqb (PyStr.lower (py_str first_col)) "ip address"
        then ColumnTitle else as_address in
      Ok match parse_subnet_header first_col with
         | Some (subnet, description) =>
             if PyStr.nonempty subnet then SubnetHeader subnet description
             else not_a_header
         | None => not_a_header
         end
  end.

(** What the loop body does with a row of each kind. *)
Definition run_kind (k : RowKind) (vars : LoopVars) : M LoopVars :=
  match k with
  | SubnetHeader cidr description =>
      create_prefix cidr description ;;;
      ret {| current_subnet := Some cidr;
             current_description := Some description |}
  | AddressData address _ description hostname mac owner device port note =>
      create_ip_address address hostname description mac owner device port note ;;;
      ret vars
  | ColumnTitle | Noise => ret vars
  end.

(** The two calls the loop makes on the importer. *)
Inductive Intent : Type :=
| CreateSubnet (cidr description : string)
| CreateAddress (address : string)
    (hostname description mac owner device port note : PyVal).

Definition intent_of (k : RowKind) : option Intent :=
  match k with
  | SubnetHeader cidr description => Some (CreateSubnet cidr description)
  | AddressData address _ description hostname mac owner device port note =>
      Some (CreateAddress address hostname description mac owner device port note)
  | ColumnTitle | Noise => None
  end.

(** The intents of a data frame, in row order, up to its first empty row. *)
Fixpoint parse (df : DataFrame) : list Intent :=
  match df with
  | [] => []
  | row :: rest =>
      match classify row with
      | Raise _ => []
      | Ok k =>
          match intent_of k with
          | Some i => i :: parse rest
          | None => parse rest
          end
      end
  end.

Definition apply_intent (i : Intent) : M unit :=
  match i with
  | CreateSubnet cidr description =>
      create_prefix cidr description ;;; ret tt
  | CreateAddress address hostname description mac owner device port note =>
      create_ip_address address hostname description mac owner device port note
  end.

(** The calls of the loop, one intent after the other. *)
Fixpoint reconcile (intents : list Intent) : M unit :=
  match intents with
  | [] => ret tt
  | i :: rest => apply_intent i ;;; reconcile rest
  end.

Definition is_subnet_intent (i : Intent) : bool :=
  match i with CreateSubnet _ _ => true | _ => false end.

(** An address intent whose address [ip_address] accepts. *)
Definition is_valid_address_intent (i : Intent) : bool :=
  match i with
  | CreateAddress address _ _ _ _ _ _ _ =>
      match ip_address ipaddress address with Some _ => true | None => false end
  | _ => false
  end.

Definition count_subnets (intents : list Intent) : nat :=
  length (List.filter is_subnet_intent intents).

Definition count_valid_addresses (intents : list Intent) : nat :=
  length (List.filter is_valid_address_intent intents).

(** The client state [s] holds what the intent asks for. *)
Definition intent_stored (i : Intent) (s : S) : Prop :=
  match i with
  | CreateSubnet cidr _ => prefix_found pynetbox cidr s
  | CreateAddress address _ _ _ _ _ _ _ =>
      forall v, ip_address ipaddress address = Some v ->
                address_found pynetbox (ip_with_mask address v) s
  end.

(** What [get] finds in [s] it finds in [s']. *)
Definition keeps_found (s s' : S) : Prop :=
  (forall p, prefix_found pynetbox p s -> prefix_found pynetbox p s')
  /\ (forall a, address_found pynetbox a s -> address_found pynetbox a s').

End Importer.

(** * A reference [ipaddress] module

    The textual forms the examples below use, decided as CPython's
    [ipaddress] decides them: IPv4 dotted-quad addresses, IPv6
    colon-hexadecimal addresses (without zone id and without a dotted-quad
    tail), and IPv4 networks written [address/length] or [address] alone.
    Other forms are rejected here.  The theorems on the importer hold for
    every [IpAddressModule]; this one evaluates them on concrete rows. *)

Module RefIpaddress.

Import PyStr.

Definition is_digit (c : ascii) : bool :=
  let n := nat_of_ascii c in Nat.leb 48 n && Nat.leb n 57.

Definition is_hex_digit (c : ascii) : bool :=
  let n := nat_of_ascii c in
  is_digit c || (Nat.leb 65 n && Nat.leb n 70) || (Nat.leb 97 n && Nat.leb n 102).

Fixpoint all_chars (p : ascii -> bool) (s : string) : bool :=
  match s with
  | EmptyString => true
  | String c s' => p c && all_chars p s'
  end.

(** [int(s, 10)] on a string of decimal digits. *)
Fixpoint decimal (s : string) (acc : N) : N :=
  match s with
  | EmptyString => acc
  | String c s' => decimal s' (10 * acc + N.of_nat (nat_of_ascii c - 48))%N
  end.

(** [IPv4Address._parse_octet] *)
Definition parse_octet (octet_str : string) : option N :=
  if negb (nonempty octet_str) then None
  else if negb (all_chars is_digit octet_str) then None
  else if Nat.ltb 3 (String.length octet_str) then None
  else if negb (String.eqb octet_str "0") && startswith "0" octet_str then None
  else
    let octet_int := decimal octet_str 0 in
    if N.ltb 255 octet_int then None else Some octet_int.

(** [IPv4Address._ip_int_from_string] *)
Definition ipv4_int (ip_str : string) : option N :=
  match split "." ip_str with
  | [a; b; c; d] =>
      match parse_octet a, parse_octet b, parse_octet c, parse_octet d with
      | Some x, Some y, Some z, Some w =>
          Some (((x * 256 + y) * 256 + z) * 256 + w)%N
      | _, _, _, _ => None
      end
  | _ => None
  end.

(** [IPv6Address._parse_hextet] succeeds. *)
Definition hextet_ok (hextet_str : string) : bool :=
  all_chars is_hex_digit hextet_str
  && Nat.leb (String.length hextet_str) 4
  && nonempty hextet_str.

(** The indices [i] in [range(1, len(parts) - 1)] with [parts[i]] empty;
    [i] is the index of the head of [parts]. *)
Fixpoint inner_empty (parts : list string) (i : nat) : list nat :=
  match parts with
  | [] | [_] => []
  | p :: rest =>
      (if Nat.ltb 0 i && negb (nonempty p) then [i] else [])
      ++ inner_empty rest (Datatypes.S i)
  end.

(** [IPv6Address._ip_int_from_string] succeeds; a last part with a ['.'] in
    it (the dotted-quad tail) is rejected here. *)
Definition ipv6_ok (ip_str : string) : bool :=
  let parts := split ":" ip_str in
  let n := length parts in
  if Nat.ltb n 3 then false
  else if contains "." (List.last parts "") then false
  else if Nat.ltb 9 n then false
  else
    let first_empty := negb (nonempty (hd "" parts)) in
    let last_empty := negb (nonempty (List.last parts "")) in
    match inner_empty parts 0 with
    | [] =>
        Nat.eqb n 8 && negb first_empty && negb last_empty
        && forallb hextet_ok parts
    | [skip_index] =>
        let parts_hi := if first_empty then skip_index - 1 else skip_index in
        let parts_lo :=
          if last_empty then n - skip_index - 1 - 1 else n - skip_index - 1 in
        if first_empty && negb (Nat.eqb parts_hi 0) then false
        else if last_empty && negb (Nat.eqb parts_lo 0) then false
        else if Nat.ltb (8 - (parts_hi + parts_lo)) 1 then false
        else
          forallb hextet_ok (firstn parts_hi parts)
          && forallb hextet_ok (skipn (n - parts_lo) parts)
    | _ => false
    end.

(** [ipaddress.ip_address] *)
Definition ip_address (s : string) : option IPVersion :=
  if contains "/" s then None
  else
    match ipv4_int s with
    | Some _ => Some V4
    | None => if ipv6_ok s then Some V6 else None
    end.

(** [_prefix_from_prefix_string] for IPv4. *)
Definition prefix_length (s : string) : option N :=
  if nonempty s && all_chars is_digit s then
    let n := decimal s 0 in
    if N.ltb 32 n then None else Some n
  else None.

(** [ipaddress.ip_network], IPv4 with a decimal prefix length; the host bits
    must be zero ([strict=True]). *)
Definition ip_network (s : string) : bool :=
  match split "/" s with
  | [a] => match ipv4_int a with Some _ => true | None => false end
  | [a; p] =>
      match ipv4_int a, prefix_length p with
      | Some ip, Some n => N.eqb (N.modulo ip (2 ^ (32 - n))) 0
      | _, _ => false
      end
  | _ => false
  end.

End RefIpaddress.

(** * Reference NetBox clients *)

(** A stored prefix or address: the keyword arguments of its [create]. *)
Record RefRecord : Type := {
  rec_key : string;
  rec_dns_name : PyVal;
  rec_description : string;
  rec_status : string
}.

(** An inventory that answers every call: prefixes and addresses by key. *)
Record RefStore : Type := {
  st_prefixes : gmap string RefRecord;
  st_addresses : gmap string RefRecord
}.

Definition empty_store : RefStore :=
  {| st_prefixes := ∅; st_addresses := ∅ |}.

Definition ref_netbox : NetBox RefStore RefRecord :=
  {| prefixes_get := fun prefix s => (Ok (st_prefixes s !! prefix), s);
     prefixes_create := fun prefix description status s =>
       let r := {| rec_key := prefix; rec_dns_name := VStr "";
                   rec_description := description; rec_status := status |} in
       (Ok r, {| st_prefixes := <[prefix := r]> (st_prefixes s);
                 st_addresses := st_addresses s |});
     ip_addresses_get := fun address s => (Ok (st_addresses s !! address), s);
     ip_addresses_create := fun address dns_name description status s =>
       let r := {| rec_key := address; rec_dns_name := dns_name;
                   rec_description := description; rec_status := status |} in
       (Ok r, {| st_prefixes := st_prefixes s;
                 st_addresses := <[address := r]> (st_addresses s) |}) |}.

(** A client every call of which raises [e]; its state counts the calls. *)
Definition failing_netbox (e : PyExc) : NetBox nat unit :=
  {| prefixes_get := fun _ n => (Raise e, Datatypes.S n);
     prefixes_create := fun _ _ _ n => (Raise e, Datatypes.S n);
     ip_addresses_get := fun _ n => (Raise e, Datatypes.S n);
     ip_addresses_create := fun _ _ _ _ n => (Raise e, Datatypes.S n) |}.

(** The rows of the specification's examples. *)
Definition sample_export : DataFrame :=
  [[VStr "IP address"; VStr "State"; VStr "Description"; VStr "Hostname"];
   [VStr "10.1.8.0/24 - CTRL-W27-04-LANtime (vlan: 108)"];
   [VStr "10.1.8.5"; VStr "Used"; VStr "Server A"; VStr "host-a";
    VStr ""; VStr ""; VStr ""; VStr ""; VStr ""];
   [VStr "not-an-ip"];
   [VNaN; VNaN];
   [VOther "42.0" true]].

(** * Facts about the string primitives *)

Section StringFacts.

Import PyStr.

Lemma append_cons (c : ascii) (s t : string) :
  String c s ++ t = String c (s ++ t).
Proof. reflexivity. Qed.

Lemma append_empty_l (s : string) : "" ++ s = s.
Proof. reflexivity. Qed.

Lemma append_empty_r (s : string) : s ++ "" = s.
Proof.
  induction s as [|c s IH]; [reflexivity | now rewrite append_cons, IH].
Qed.

Lemma append_assoc (a b c : string) : (a ++ b) ++ c = a ++ (b ++ c).
Proof.
  induction a as [|x a IH]; [reflexivity | now rewrite !append_cons, IH].
Qed.

Lemma length_append (a b : string) :
  String.length (a ++ b) = String.length a + String.length b.
Proof.
  induction a as [|x a IH]; [reflexivity|].
  rewrite append_cons. cbn [String.length]. now rewrite IH.
Qed.

Lemma contains_char_cons (c a : ascii) (s : string) :
  contains (String c "") (String a s)
  = Ascii.eqb c a || contains (String c "") s.
Proof. simpl. now rewrite andb_true_r. Qed.

Lemma contains_false_startswith (sep s : string) :
  contains sep s = false -> startswith sep s = false.
Proof.
  destruct s; simpl; intros H; apply orb_false_iff in H; tauto.
Qed.

Lemma contains_false_tail (sep : string) (c : ascii) (s : string) :
  contains sep (String c s) = false -> contains sep s = false.
Proof. simpl. intros H. apply orb_false_iff in H. tauto. Qed.

(** Without a separator in it, a string is its own single segment. *)
Lemma split_scan_no_sep (sep s cur : string) :
  contains sep s = false -> split_scan sep s 0 cur = [cur ++ s].
Proof.
  revert cur. induction s as [|c s IH]; intros cur H.
  - cbn [split_scan]. now rewrite append_empty_r.
  - cbn [split_scan]. rewrite (contains_false_startswith _ _ H).
    rewrite IH by exact (contains_false_tail _ _ _ H).
    now rewrite append_assoc.
Qed.

Lemma split_no_sep (sep s : string) :
  contains sep s = false -> split sep s = [s].
Proof. intros H. unfold split. now rewrite split_scan_no_sep. Qed.

(** Stripping removes white space only. *)
Lemma contains_char_lstrip (c : ascii) (s : string) :
  is_space c = false ->
  contains (String c "") (lstrip s) = contains (String c "") s.
Proof.
  intros Hc. induction s as [|a s IH]; [reflexivity|].
  cbn [lstrip]. destruct (is_space a) eqn:Ha; [|reflexivity].
  rewrite IH, contains_char_cons.
  destruct (Ascii.eqb_spec c a) as [->|_]; [congruence | reflexivity].
Qed.

Lemma contains_char_rstrip (c : ascii) (s : string) :
  is_space c = false ->
  contains (String c "") (rstrip s) = contains (String c "") s.
Proof.
  intros Hc. induction s as [|a s IH]; [reflexivity|].
  cbn [rstrip]. rewrite contains_char_cons, <- IH.
  destruct (rstrip s) as [|b r] eqn:Hr.
  - destruct (is_space a) eqn:Ha.
    + destruct (Ascii.eqb_spec c a) as [->|_]; [congruence | reflexivity].
    + now rewrite contains_char_cons.
  - now rewrite contains_char_cons.
Qed.

Lemma contains_char_strip (c : ascii) (s : string) :
  is_space c = false ->
  contains (String c "") (strip s) = contains (String c "") s.
Proof.
  intros Hc. unfold strip.
  now rewrite contains_char_rstrip, contains_char_lstrip.
Qed.

(** Lower-casing neither makes nor removes a character that no other
    character lower-cases to and that is its own lower case. *)
Lemma contains_char_lower (c : ascii) (s : string) :
  (forall a, Ascii.eqb c (lower_char a) = Ascii.eqb c a) ->
  contains (String c "") (lower s) = contains (String c "") s.
Proof.
  intros Hc. induction s as [|a s IH]; [reflexivity|].
  cbn [lower]. now rewrite !contains_char_cons, Hc, IH.
Qed.

Lemma lower_char_keeps_slash (a : ascii) :
  Ascii.eqb "/" (lower_char a) = Ascii.eqb "/" a.
Proof. destruct a as [[] [] [] [] [] [] [] []]; reflexivity. Qed.

Lemma lower_char_keeps_dot (a : ascii) :
  Ascii.eqb "." (lower_char a) = Ascii.eqb "." a.
Proof. destruct a as [[] [] [] [] [] [] [] []]; reflexivity. Qed.

Lemma lower_char_keeps_colon (a : ascii) :
  Ascii.eqb ":" (lower_char a) = Ascii.eqb ":" a.
Proof. destruct a as [[] [] [] [] [] [] [] []]; reflexivity. Qed.

End StringFacts.


Section RefIpaddressLaws.

Import PyStr.

Lemma ref_ipv4_needs_dot (s : string) :
  contains "." s = false -> RefIpaddress.ipv4_int s = None.
Proof.
  intros H. unfold RefIpaddress.ipv4_int. now rewrite (split_no_sep _ _ H).
Qed.

Lemma ref_ipv6_needs_colon (s : string) :
  contains ":" s = false -> RefIpaddress.ipv6_ok s = false.
Proof.
  intros H. unfold RefIpaddress.ipv6_ok. now rewrite (split_no_sep _ _ H).
Qed.

Lemma ref_ip_address_no_slash (s : string) (v : IPVersion) :
  RefIpaddress.ip_address s = Some v -> contains "/" s = false.
Proof.
  unfold RefIpaddress.ip_address.
  destruct (contains "/" s); [discriminate | reflexivity].
Qed.

Lemma ref_ip_address_separator (s : string) (v : IPVersion) :
  RefIpaddress.ip_address s = Some v ->
  contains "." s || contains ":" s = true.
Proof.
  unfold RefIpaddress.ip_address. intros H.
  destruct (contains "." s) eqn:Hdot; [reflexivity|].
  destruct (contains ":" s) eqn:Hcolon; [reflexivity|].
  rewrite (ref_ipv4_needs_dot _ Hdot), (ref_ipv6_needs_colon _ Hcolon) in H.
  destruct (contains "/" s); discriminate.
Qed.

Lemma ref_ip_network_not_empty : RefIpaddress.ip_network "" = false.
Proof. reflexivity. Qed.

End RefIpaddressLaws.

(** The reference module as an [IpAddressModule]. *)
Definition ref_ipaddress : IpAddressModule :=
  {| ip_address := RefIpaddress.ip_address;
     ip_network := RefIpaddress.ip_network;
     ip_address_no_slash := ref_ip_address_no_slash;
     ip_address_separator := ref_ip_address_separator;
     ip_network_not_empty := ref_ip_network_not_empty |}.


(** * Equations of the importer's methods *)

Section MethodEquations.

Context {S R : Type}.
Variable ipaddress : IpAddressModule.
Variable pynetbox : NetBox S R.

Implicit Types (w : Importer S) (e : PyExc).

(** ** [create_prefix] *)

Lemma create_prefix_dry subnet description w :
  create_prefix pynetbox true subnet description w
  = (Ok RetTrue,
     {| nb := nb w; stats := incr_prefixes_created (stats w); calls := calls w |}).
Proof. reflexivity. Qed.

Lemma create_prefix_exists subnet description w r s1 :
  prefixes_get pynetbox subnet (nb w) = (Ok (Some r), s1) ->
  create_prefix pynetbox false subnet description w
  = (Ok (RetRecord r),
     {| nb := s1; stats := incr_prefixes_skipped (stats w);
        calls := calls w ++ [PrefixesGet subnet] |}).
Proof.
  intros H.
  unfold create_prefix, try_except, bind, nb_prefixes_get, client_call.
  cbn. now rewrite H.
Qed.

Lemma create_prefix_get_raises subnet description w e s1 :
  prefixes_get pynetbox subnet (nb w) = (Raise e, s1) ->
  create_prefix pynetbox false subnet description w
  = (Ok RetNone,
     {| nb := s1; stats := incr_errors (stats w);
        calls := calls w ++ [PrefixesGet subnet] |}).
Proof.
  intros H.
  unfold create_prefix, try_except, bind, nb_prefixes_get, client_call.
  cbn. now rewrite H.
Qed.

Lemma create_prefix_new subnet description w s1 :
  prefixes_get pynetbox subnet (nb w) = (Ok None, s1) ->
  let stored :=
    if PyStr.nonempty description then PyStr.slice_to 200 description else "" in
  create_prefix pynetbox false subnet description w
  = match prefixes_create pynetbox subnet stored "active" s1 with
    | (Ok r, s2) =>
        (Ok (RetRecord r),
         {| nb := s2; stats := incr_prefixes_created (stats w);
            calls := calls w ++ [PrefixesGet subnet;
                                 PrefixesCreate subnet stored "active"] |})
    | (Raise e, s2) =>
        (Ok RetNone,
         {| nb := s2; stats := incr_errors (stats w);
            calls := calls w ++ [PrefixesGet subnet;
                                 PrefixesCreate subnet stored "active"] |})
    end.
Proof.
  intros H stored.
  unfold create_prefix, try_except, bind, nb_prefixes_get, nb_prefixes_create,
    client_call.
  cbn. rewrite H. cbn. fold stored.
  destruct (prefixes_create pynetbox subnet stored "active" s1) as [[r|e] s2];
    cbn; now rewrite <- app_assoc.
Qed.

(** ** [create_ip_address] *)

Lemma create_ip_address_invalid dry ip hostname description mac owner device port note w :
  ip_address ipaddress ip = None ->
  create_ip_address ipaddress pynetbox dry ip hostname description mac owner
    device port note w = (Ok tt, w).
Proof.
  intros H. unfold create_ip_address, try_except, bind, py_ip_address.
  now rewrite H.
Qed.

Lemma create_ip_address_dry ip hostname description mac owner device port note w v :
  ip_address ipaddress ip = Some v ->
  create_ip_address ipaddress pynetbox true ip hostname description mac owner
    device port note w
  = (Ok tt,
     {| nb := nb w; stats := incr_ips_created (stats w); calls := calls w |}).
Proof.
  intros H. unfold create_ip_address, try_except, bind, py_ip_address.
  now rewrite H.
Qed.

Lemma create_ip_address_exists ip hostname description mac owner device port note w v r s1 :
  ip_address ipaddress ip = Some v ->
  ip_addresses_get pynetbox (ip_with_mask ip v) (nb w) = (Ok (Some r), s1) ->
  create_ip_address ipaddress pynetbox false ip hostname description mac owner
    device port note w
  = (Ok tt,
     {| nb := s1; stats := incr_ips_skipped (stats w);
        calls := calls w ++ [IpAddressesGet (ip_with_mask ip v)] |}).
Proof.
  intros Hv H.
  unfold create_ip_address, try_except, bind, py_ip_address,
    nb_ip_addresses_get, client_call.
  rewrite Hv. cbn. now rewrite H.
Qed.

Lemma create_ip_address_get_raises ip hostname description mac owner device port note w v e s1 :
  ip_address ipaddress ip = Some v ->
  ip_addresses_get pynetbox (ip_with_mask ip v) (nb w) = (Raise e, s1) ->
  create_ip_address ipaddress pynetbox false ip hostname description mac owner
    device port note w
  = (Ok tt,
     {| nb := s1;
        stats := match e with
                 | ValueError => stats w
                 | _ => incr_errors (stats w)
                 end;
        calls := calls w ++ [IpAddressesGet (ip_with_mask ip v)] |}).
Proof.
  intros Hv H.
  unfold create_ip_address, try_except, bind, py_ip_address,
    nb_ip_addresses_get, client_call.
  rewrite Hv. cbn. rewrite H. now destruct e.
Qed.

Lemma create_ip_address_new ip hostname description mac owner device port note w v s1 :
  ip_address ipaddress ip = Some v ->
  ip_addresses_get pynetbox (ip_with_mask ip v) (nb w) = (Ok None, s1) ->
  let key := ip_with_mask ip v in
  let dns_name := if pd_notna hostname then hostname else VStr "" in
  let full := full_description description note in
  let stored := if PyStr.nonempty full then PyStr.slice_to 200 full else "" in
  let issued :=
    (calls w ++ [IpAddressesGet key;
                 IpAddressesCreate key dns_name stored "active"])%list in
  create_ip_address ipaddress pynetbox false ip hostname description mac owner
    device port note w
  = match ip_addresses_create pynetbox key dns_name stored "active" s1 with
    | (Ok _, s2) =>
        (Ok tt,
         {| nb := s2; stats := incr_ips_created (stats w); calls := issued |})
    | (Raise e, s2) =>
        (Ok tt,
         {| nb := s2;
            stats := match e with
                     | ValueError => stats w
                     | _ => incr_errors (stats w)
                     end;
            calls := issued |})
    end.
Proof.
  intros Hv H key dns_name full stored issued.
  unfold create_ip_address, try_except, bind, py_ip_address,
    nb_ip_addresses_get, nb_ip_addresses_create, client_call.
  rewrite Hv. cbn. rewrite H. cbn. fold key full stored dns_name.
  destruct (ip_addresses_create pynetbox key dns_name stored "active" s1)
    as [[r|e] s2]; cbn; unfold issued; rewrite <- app_assoc;
    [reflexivity | now destruct e].
Qed.

End MethodEquations.

(** * The loop body, branch by branch *)

Section LoopBody.

Context {S R : Type}.
Variable ipaddress : IpAddressModule.
Variable pynetbox : NetBox S R.
Variable DRY_RUN : bool.

Implicit Types (w : Importer S) (row : list PyVal) (vars : LoopVars).

Lemma bind_ok {A B} (m : M A) (f : A -> M B) w a w' :
  m w = (Ok a, w') -> bind m f w = f a w'.
Proof. intros H. unfold bind. now rewrite H. Qed.

Lemma try_except_ok {A} (m : M A) h w a w' :
  m w = (Ok a, w') -> try_except m h w = (Ok a, w').
Proof. intros H. unfold try_except. now rewrite H. Qed.

(** Neither method lets an exception out. *)
Lemma create_prefix_returns subnet description w :
  exists r w', create_prefix pynetbox DRY_RUN subnet description w = (Ok r, w').
Proof.
  destruct DRY_RUN.
  - rewrite create_prefix_dry. eauto.
  - destruct (prefixes_get pynetbox subnet (nb w)) as [[[r|]|e] s1] eqn:Hget.
    + erewrite create_prefix_exists by eassumption. eauto.
    + rewrite (create_prefix_new _ _ _ _ _ Hget).
      destruct (prefixes_create _ _ _ _ _) as [[r|e] s2]; eauto.
    + erewrite create_prefix_get_raises by eassumption. eauto.
Qed.

Lemma create_ip_address_returns ip hostname description mac owner device port note w :
  exists w',
    create_ip_address ipaddress pynetbox DRY_RUN ip hostname description mac
      owner device port note w = (Ok tt, w').
Proof.
  destruct (ip_address ipaddress ip) as [v|] eqn:Hv.
  - destruct DRY_RUN.
    + erewrite create_ip_address_dry by eassumption. eauto.
    + destruct (ip_addresses_get pynetbox (ip_with_mask ip v) (nb w))
        as [[[r|]|e] s1] eqn:Hget.
      * erewrite create_ip_address_exists by eassumption. eauto.
      * rewrite (create_ip_address_new _ _ _ _ _ _ _ _ _ _ _ _ _ Hv Hget).
        destruct (ip_addresses_create _ _ _ _ _ _) as [[r|e] s2]; eauto.
      * erewrite create_ip_address_get_raises by eassumption. eauto.
  - rewrite create_ip_address_invalid by assumption. eauto.
Qed.

(** [row.iloc[i] if len(row) > i else None] never raises. *)
Lemma iloc_or_none_cell row i w :
  iloc_or_none row i w = (Ok (cell row i), w).
Proof.
  unfold iloc_or_none, iloc, cell.
  destruct (Nat.ltb_spec i (length row)) as [Hlt|Hge].
  - destruct (nth_error row i) as [v|] eqn:Hn.
    + now rewrite (nth_error_nth _ _ VNone Hn).
    + apply nth_error_None in Hn. lia.
  - now rewrite nth_overflow by lia.
Qed.

(** The address branch: the second parse of the same text succeeds when the
    first did, and the [try] around the call catches nothing. *)
Lemma address_row_eq row first_col w :
  address_row ipaddress pynetbox DRY_RUN row first_col w
  = if pd_notna first_col then
      match ip_address ipaddress (PyStr.strip (py_str first_col)) with
      | Some _ =>
          create_ip_address ipaddress pynetbox DRY_RUN
            (PyStr.strip (py_str first_col))
            (cell row 3) (cell row 2) (cell row 4) (cell row 5) (cell row 6)
            (cell row 7) (cell row 8) w
      | None => (Ok tt, w)
      end
    else (Ok tt, w).
Proof.
  unfold address_row.
  rewrite (bind_ok _ _ _ _ _ (iloc_or_none_cell row 1 w)).
  destruct (pd_notna first_col); [|reflexivity].
  destruct (ip_address ipaddress (PyStr.strip (py_str first_col))) as [v|] eqn:Hv.
  - destruct (create_ip_address_returns (PyStr.strip (py_str first_col))
                (cell row 3) (cell row 2) (cell row 4) (cell row 5)
                (cell row 6) (cell row 7) (cell row 8) w) as [w' Hw'].
    rewrite Hw'. apply try_except_ok.
    unfold py_ip_address. rewrite Hv.
    unfold ret at 1. unfold bind at 1.
    repeat (erewrite bind_ok by apply iloc_or_none_cell).
    exact Hw'.
  - unfold try_except, bind, py_ip_address. now rewrite Hv.
Qed.

(** The loop body does what [run_kind] says for the row's kind, and raises
    [IndexError] on a row without cells. *)
Lemma process_row_classify row vars w :
  process_row ipaddress pynetbox DRY_RUN row vars w
  = match classify ipaddress row with
    | Ok k => run_kind ipaddress pynetbox DRY_RUN k vars w
    | Raise e => (Raise e, w)
    end.
Proof.
  destruct row as [|first_col rest]; [reflexivity|].
  unfold process_row, classify.
  change (iloc (first_col :: rest) 0) with (@ret S _ first_col).
  unfold bind at 1, ret at 1.
  assert (Haddr : forall vars',
    bind (address_row ipaddress pynetbox DRY_RUN (first_col :: rest) first_col)
         (fun _ => ret vars') w
    = run_kind ipaddress pynetbox DRY_RUN
        (if pd_notna first_col then
           match ip_address ipaddress (PyStr.strip (py_str first_col)) with
           | Some _ =>
               AddressData (PyStr.strip (py_str first_col))
                 (cell (first_col :: rest) 1) (cell (first_col :: rest) 2)
                 (cell (first_col :: rest) 3) (cell (first_col :: rest) 4)
                 (cell (first_col :: rest) 5) (cell (first_col :: rest) 6)
                 (cell (first_col :: rest) 7) (cell (first_col :: rest) 8)
           | None => Noise
           end
         else Noise) vars' w).
  { intros vars'. unfold bind at 1. rewrite address_row_eq.
    destruct (pd_notna first_col); [|reflexivity].
    destruct (ip_address ipaddress (PyStr.strip (py_str first_col)));
      reflexivity. }
  destruct first_col as [text|text truth| |];
    try (cbn [parse_subnet_header isinstance_str andb]; apply Haddr).
  cbn [isinstance_str andb py_str].
  destruct (parse_subnet_header ipaddress (VStr text)) as [[subnet description]|].
  - destruct (PyStr.nonempty subnet); [reflexivity|].
    destruct (String.eqb (PyStr.lower text) "ip address");
      [reflexivity | apply Haddr].
  - destruct (String.eqb (PyStr.lower text) "ip address");
      [reflexivity | apply Haddr].
Qed.

End LoopBody.

(** * The loop as a run over intents *)

Section LoopAsIntents.

Context {S R : Type}.
Variable ipaddress : IpAddressModule.
Variable pynetbox : NetBox S R.
Variable DRY_RUN : bool.

Implicit Types (w : Importer S) (row : list PyVal) (vars : LoopVars).

Lemma apply_intent_returns i w :
  exists w', apply_intent ipaddress pynetbox DRY_RUN i w = (Ok tt, w').
Proof.
  destruct i as [cidr description|address hostname description mac owner device port note];
    cbn [apply_intent].
  - destruct (create_prefix_returns pynetbox DRY_RUN cidr description w)
      as (r & w' & H).
    exists w'. unfold bind. now rewrite H.
  - apply create_ip_address_returns.
Qed.

Lemma reconcile_returns intents w :
  exists w', reconcile ipaddress pynetbox DRY_RUN intents w = (Ok tt, w').
Proof.
  revert w. induction intents as [|i rest IH]; intros w; cbn [reconcile].
  - now exists w.
  - destruct (apply_intent_returns i w) as [w1 H1].
    rewrite (bind_ok _ _ _ _ _ H1). apply IH.
Qed.

Lemma reconcile_cons i rest w :
  reconcile ipaddress pynetbox DRY_RUN (i :: rest) w
  = reconcile ipaddress pynetbox DRY_RUN rest
      (snd (apply_intent ipaddress pynetbox DRY_RUN i w)).
Proof.
  cbn [reconcile]. destruct (apply_intent_returns i w) as [w1 H1].
  rewrite (bind_ok _ _ _ _ _ H1). now rewrite H1.
Qed.

(** A row of a kind with an intent runs that intent; a row of a kind
    without one changes nothing. *)
Lemma run_kind_intent k vars w :
  match intent_of k with
  | Some i =>
      exists vars',
        run_kind ipaddress pynetbox DRY_RUN k vars w
        = (Ok vars', snd (apply_intent ipaddress pynetbox DRY_RUN i w))
  | None => run_kind ipaddress pynetbox DRY_RUN k vars w = (Ok vars, w)
  end.
Proof.
  destruct k as [cidr description| |address state description hostname mac owner device port note|];
    cbn [intent_of run_kind apply_intent]; try reflexivity.
  - destruct (create_prefix_returns pynetbox DRY_RUN cidr description w)
      as (r & w' & H).
    eexists. unfold bind. rewrite H. reflexivity.
  - destruct (create_ip_address_returns ipaddress pynetbox DRY_RUN address
                hostname description mac owner device port note w) as [w' H].
    eexists. unfold bind at 1. rewrite H. reflexivity.
Qed.

(** The importer after the loop is the importer after the intents of the
    data frame, whether or not the loop ended on an [IndexError]. *)
Lemma process_rows_parse df vars w :
  snd (process_rows ipaddress pynetbox DRY_RUN df vars w)
  = snd (reconcile ipaddress pynetbox DRY_RUN (parse ipaddress df) w).
Proof.
  revert vars w. induction df as [|row rest IH]; intros vars w;
    cbn [process_rows parse]; [reflexivity|].
  unfold bind at 1. rewrite process_row_classify.
  destruct (classify ipaddress row) as [k|e]; [|reflexivity].
  pose proof (run_kind_intent k vars w) as Hk.
  destruct (intent_of k) as [i|].
  - destruct Hk as [vars' Hk]. rewrite Hk, reconcile_cons. apply IH.
  - rewrite Hk. apply IH.
Qed.

Lemma process_data_parse df w :
  snd (process_data ipaddress pynetbox DRY_RUN df w)
  = snd (reconcile ipaddress pynetbox DRY_RUN (parse ipaddress df) w).
Proof.
  unfold process_data, bind.
  rewrite <- (process_rows_parse df
                {| current_subnet := None; current_description := None |} w).
  now destruct (process_rows _ _ _ _ _ _) as [[vars'|e] w'].
Qed.

(** With a first cell in every row the loop runs to its end. *)
Lemma process_rows_returns df vars w :
  (forall row, In row df -> row <> []) ->
  exists vars', fst (process_rows ipaddress pynetbox DRY_RUN df vars w) = Ok vars'.
Proof.
  revert vars w. induction df as [|row rest IH]; intros vars w Hrows;
    cbn [process_rows].
  - now exists vars.
  - unfold bind at 1. rewrite process_row_classify.
    destruct row as [|first_col cells]; [now destruct (Hrows [] (or_introl eq_refl))|].
    assert (Hk : exists k, classify ipaddress (first_col :: cells) = Ok k)
      by (unfold classify; eauto).
    destruct Hk as [k Hk]. rewrite Hk.
    pose proof (run_kind_intent k vars w) as Hrun.
    destruct (intent_of k) as [i|].
    + destruct Hrun as [vars' Hrun]. rewrite Hrun.
      apply IH. intros r Hr. apply Hrows. now right.
    + rewrite Hrun. apply IH. intros r Hr. apply Hrows. now right.
Qed.

End LoopAsIntents.

(** * Splitting and joining *)

Section SplitFacts.

Import PyStr.

Variable sep : string.
Hypothesis sep_not_empty : sep <> "".

Lemma split_scan_skip (s : string) (k : nat) (cur : string) :
  split_scan sep s k cur = split_scan sep (slice_from k s) 0 cur.
Proof.
  revert k. induction s as [|c s IH]; intros [|k]; try reflexivity.
  cbn [split_scan slice_from]. apply IH.
Qed.

Lemma startswith_append (p s : string) :
  startswith p s = true -> s = p ++ slice_from (String.length p) s.
Proof.
  revert s. induction p as [|a p IH]; intros s H; [reflexivity|].
  destruct s as [|b s]; [discriminate|].
  cbn [startswith] in H. apply andb_true_iff in H as [Hab Hp].
  apply Ascii.eqb_eq in Hab as ->.
  cbn [String.length slice_from]. rewrite append_cons. f_equal. now apply IH.
Qed.

Lemma length_slice_from (k : nat) (s : string) :
  String.length (slice_from k s) <= String.length s.
Proof.
  revert k. induction s as [|c s IH]; intros [|k]; cbn [slice_from String.length];
    try lia.
  specialize (IH k). lia.
Qed.

Lemma split_scan_not_nil (s : string) (k : nat) (cur : string) :
  split_scan sep s k cur <> [].
Proof.
  revert k cur. induction s as [|c s IH]; intros k cur; cbn [split_scan];
    [discriminate|].
  destruct k; [|apply IH].
  destruct (startswith sep (String c s)); [discriminate | apply IH].
Qed.

Lemma join_cons (x : string) (l : list string) :
  l <> [] -> join sep (x :: l) = x ++ sep ++ join sep l.
Proof. destruct l; [congruence | reflexivity]. Qed.

Lemma join_split_scan (n : nat) (s cur : string) :
  String.length s <= n ->
  join sep (split_scan sep s 0 cur) = cur ++ s.
Proof.
  revert s cur. induction n as [|n IH]; intros s cur Hlen.
  - destruct s; [|cbn [String.length] in Hlen; lia].
    cbn [split_scan join]. now rewrite append_empty_r.
  - destruct s as [|c s].
    { cbn [split_scan join]. now rewrite append_empty_r. }
    cbn [String.length] in Hlen. cbn [split_scan].
    destruct (startswith sep (String c s)) eqn:Hstart.
    + rewrite split_scan_skip, join_cons by apply split_scan_not_nil.
      rewrite IH.
      * rewrite append_empty_l.
        pose proof (startswith_append _ _ Hstart) as Hs.
        destruct sep as [|a p]; [congruence|].
        cbn [String.length slice_from] in Hs |- *.
        replace (Datatypes.S (String.length p) - 1) with (String.length p) by lia.
        now rewrite <- Hs.
      * pose proof (length_slice_from (String.length sep - 1) s). lia.
    + rewrite IH by lia. now rewrite append_assoc.
Qed.

(** Joining the segments of a string gives the string back. *)
Lemma join_split (s : string) : join sep (split sep s) = s.
Proof. unfold split. now rewrite (join_split_scan (String.length s)). Qed.

(** The first segment ends where the separator first occurs: none starts
    inside it. *)
Lemma split_scan_first (s cur x : string) (rest : list string) :
  split_scan sep s 0 cur = x :: rest -> rest <> [] ->
  exists pre,
    x = cur ++ pre
    /\ forall j, j < String.length pre ->
                 startswith sep (slice_from j s) = false.
Proof.
  revert cur. induction s as [|c s IH]; intros cur Hsplit Hrest.
  - cbn [split_scan] in Hsplit. injection Hsplit as _ <-. congruence.
  - cbn [split_scan] in Hsplit.
    destruct (startswith sep (String c s)) eqn:Hstart.
    + injection Hsplit as <- _. exists "". split.
      * now rewrite append_empty_r.
      * cbn [String.length]. lia.
    + destruct (IH _ Hsplit Hrest) as (pre & -> & Hpre).
      exists (String c pre). split.
      * now rewrite append_assoc.
      * intros [|j] Hj; cbn [slice_from]; [exact Hstart|].
        apply Hpre. cbn [String.length] in Hj. lia.
Qed.

Lemma split_first (s x y : string) (l : list string) :
  split sep s = x :: y :: l ->
  forall j, j < String.length x -> startswith sep (slice_from j s) = false.
Proof.
  intros Hsplit.
  destruct (split_scan_first s "" x (y :: l) Hsplit ltac:(discriminate))
    as (pre & -> & Hpre).
  exact Hpre.
Qed.

End SplitFacts.

(** * Which rows take which branch *)

Section Branches.

Import PyStr.

Variable ipaddress : IpAddressModule.

(** A cell that lower-cases to the column title has none of ['/'], ['.'],
    [':']. *)
Lemma title_has_no_separator (text : string) :
  lower text = "ip address" ->
  contains "/" text = false /\ contains "." text = false
  /\ contains ":" text = false.
Proof.
  intros H.
  rewrite <- (contains_char_lower "/" text lower_char_keeps_slash).
  rewrite <- (contains_char_lower "." text lower_char_keeps_dot).
  rewrite <- (contains_char_lower ":" text lower_char_keeps_colon).
  rewrite H. repeat split; reflexivity.
Qed.

(** A cell whose stripped text is an address has no ['/'] ... *)
Lemma address_has_no_slash (text : string) (v : IPVersion) :
  ip_address ipaddress (strip text) = Some v -> contains "/" text = false.
Proof.
  intros H. rewrite <- (contains_char_strip "/" text eq_refl).
  exact (ip_address_no_slash ipaddress _ _ H).
Qed.

(** ... and is not the column title. *)
Lemma address_is_not_title (text : string) (v : IPVersion) :
  ip_address ipaddress (strip text) = Some v ->
  String.eqb (lower text) "ip address" = false.
Proof.
  intros H. apply String.eqb_neq. intros Htitle.
  destruct (title_has_no_separator _ Htitle) as (_ & Hdot & Hcolon).
  pose proof (ip_address_separator ipaddress _ _ H) as Hsep.
  rewrite (contains_char_strip "." text eq_refl) in Hsep.
  rewrite (contains_char_strip ":" text eq_refl) in Hsep.
  rewrite Hdot, Hcolon in Hsep. discriminate.
Qed.

(** A text cell with a ['/'] is neither the column title nor an address. *)
Lemma slash_cell_falls_to_noise (text : string) (rest : list PyVal) :
  contains "/" text = true ->
  parse_subnet_header ipaddress (VStr text) = None ->
  classify ipaddress (VStr text :: rest) = Ok Noise.
Proof.
  intros Hslash Hparse. unfold classify. rewrite Hparse.
  cbn [isinstance_str py_str pd_notna andb].
  destruct (String.eqb_spec (lower text) "ip address") as [Htitle|_].
  - destruct (title_has_no_separator _ Htitle) as (Hno & _). congruence.
  - destruct (ip_address ipaddress (strip text)) as [v|] eqn:Hv; [|reflexivity].
    rewrite (address_has_no_slash _ _ Hv) in Hslash. discriminate.
Qed.

(** A text cell that is the column title once trimmed and lower-cased: it
    is the title when it is so untrimmed, and noise otherwise. *)
Lemma trimmed_title_kind (text : string) (rest : list PyVal) :
  lower (strip text) = "ip address" ->
  parse_subnet_header ipaddress (VStr text) = None
  /\ ip_address ipaddress (strip text) = None
  /\ classify ipaddress (VStr text :: rest)
     = Ok (if String.eqb (lower text) "ip address" then ColumnTitle else Noise).
Proof.
  intros Htrim.
  destruct (title_has_no_separator _ Htrim) as (Hslash & Hdot & Hcolon).
  rewrite (contains_char_strip "/" text eq_refl) in Hslash.
  assert (Hparse : parse_subnet_header ipaddress (VStr text) = None)
    by (unfold parse_subnet_header; now rewrite Hslash).
  assert (Haddr : ip_address ipaddress (strip text) = None).
  { destruct (ip_address ipaddress (strip text)) as [v|] eqn:Hv; [|reflexivity].
    pose proof (ip_address_separator ipaddress _ _ Hv) as Hsep.
    rewrite Hdot, Hcolon in Hsep. discriminate. }
  split; [exact Hparse|]. split; [exact Haddr|].
  unfold classify. rewrite Hparse.
  cbn [isinstance_str py_str pd_notna andb]. now rewrite Haddr.
Qed.

End Branches.

(** * Properties of the specification *)

(** C2, as stated, fails: the cell ["10.1.8.0/24"] has a ['/'], its first
    (and only) segment is a valid network, and yet, having no [" - "] in it,
    it is no subnet header for [parse_subnet_header] and the row is [Noise],
    whatever the [ipaddress] module. *)
Lemma subnet_header_without_separator :
  PyStr.contains "/" "10.1.8.0/24" = true
  /\ hd "" (PyStr.split " - " "10.1.8.0/24") = "10.1.8.0/24"
  /\ ip_network ref_ipaddress "10.1.8.0/24" = true
  /\ forall ipaddress : IpAddressModule,
       parse_subnet_header ipaddress (VStr "10.1.8.0/24") = None
       /\ classify ipaddress [VStr "10.1.8.0/24"] = Ok Noise.
Proof.
  repeat split; try reflexivity.
  now apply slash_cell_falls_to_noise.
Qed.

(** C2 (amended). For a row whose first cell is a text with a ['/'] in it,
    let [parts] be the cell split on [" - "], [cidr] the first segment
    stripped of surrounding white space and [description] the other segments
    joined with [" - "].  With at least two segments and [cidr] a valid
    network, [parse_subnet_header] returns [(cidr, description)], the row is
    [SubnetHeader cidr description], the cell reads
    first segment, [" - "], description, and no [" - "] starts inside the
    first segment.  With one segment only, or [cidr] no valid network,
    [parse_subnet_header] returns [(None, None)] and the row falls through
    the other tests and is [Noise]. *)
Theorem subnet_header_row (ipaddress : IpAddressModule) (text : string)
    (rest : list PyVal) :
  PyStr.contains "/" text = true ->
  let parts := PyStr.split " - " text in
  let cidr := PyStr.strip (hd "" parts) in
  let description := PyStr.join " - " (tl parts) in
  (2 <= length parts -> ip_network ipaddress cidr = true ->
   parse_subnet_header ipaddress (VStr text) = Some (cidr, description)
   /\ classify ipaddress (VStr text :: rest)
      = Ok (SubnetHeader cidr description)
   /\ text = hd "" parts ++ " - " ++ description
   /\ forall j, j < String.length (hd "" parts) ->
                PyStr.startswith " - " (PyStr.slice_from j text) = false)
  /\ (length parts < 2 \/ ip_network ipaddress cidr = false ->
      parse_subnet_header ipaddress (VStr text) = None
      /\ classify ipaddress (VStr text :: rest) = Ok Noise).
Proof.
  intros Hslash parts cidr description. split.
  - intros Hlen Hnet.
    assert (Hparse : parse_subnet_header ipaddress (VStr text)
                     = Some (cidr, description)).
    { unfold parse_subnet_header. rewrite Hslash. cbn [negb]. fold parts.
      destruct (Nat.ltb_spec (length parts) 2) as [Hlt|_]; [lia|].
      fold cidr description. now rewrite Hnet. }
    split; [exact Hparse|]. split; [|split].
    + unfold classify. rewrite Hparse.
      destruct cidr as [|c s] eqn:Hcidr; [|reflexivity].
      rewrite (ip_network_not_empty ipaddress) in Hnet. discriminate.
    + pose proof (join_split " - " ltac:(discriminate) text) as Hjoin.
      fold parts in Hjoin. unfold description.
      destruct parts as [|p [|q l]]; cbn [length] in Hlen; try lia.
      rewrite <- Hjoin at 1. reflexivity.
    + destruct parts as [|p [|q l]] eqn:Hparts; cbn [length] in Hlen; try lia.
      exact (split_first " - " text p q l Hparts).
  - intros Hfall.
    assert (Hparse : parse_subnet_header ipaddress (VStr text) = None).
    { unfold parse_subnet_header. rewrite Hslash. cbn [negb]. fold parts.
      destruct (Nat.ltb_spec (length parts) 2) as [Hlt|Hge]; [reflexivity|].
      fold cidr. destruct Hfall as [Hlt|Hnet]; [lia | now rewrite Hnet]. }
    split; [exact Hparse|].
    now apply slash_cell_falls_to_noise.
Qed.

(** The header of the script's docstring, on the reference module. *)
Lemma subnet_header_row_witness :
  parse_subnet_header ref_ipaddress
    (VStr "10.1.8.0/24 - CTRL-W27-04-LANtime (vlan: 108 - CTRL-W27-04-LANtime)")
  = Some ("10.1.8.0/24",
          "CTRL-W27-04-LANtime (vlan: 108 - CTRL-W27-04-LANtime)")
  /\ classify ref_ipaddress
    [VStr "10.1.8.0/24 - CTRL-W27-04-LANtime (vlan: 108 - CTRL-W27-04-LANtime)"]
  = Ok (SubnetHeader "10.1.8.0/24"
          "CTRL-W27-04-LANtime (vlan: 108 - CTRL-W27-04-LANtime)")
  /\ "10.1.8.0/24 - CTRL-W27-04-LANtime (vlan: 108 - CTRL-W27-04-LANtime)"
     = "10.1.8.0/24" ++ " - "
       ++ "CTRL-W27-04-LANtime (vlan: 108 - CTRL-W27-04-LANtime)"
  /\ forall j, j < 11 ->
       PyStr.startswith " - "
         (PyStr.slice_from j
            "10.1.8.0/24 - CTRL-W27-04-LANtime (vlan: 108 - CTRL-W27-04-LANtime)")
       = false.
Proof.
  apply (proj1 (subnet_header_row ref_ipaddress
    "10.1.8.0/24 - CTRL-W27-04-LANtime (vlan: 108 - CTRL-W27-04-LANtime)" []
    eq_refl)).
  - vm_compute. lia.
  - reflexivity.
Defined.

(** C8, as stated, fails: the title test lower-cases the cell but does not
    trim it, so the padded title [" IP Address "], which trimmed and
    lower-cased is ["ip address"], is not [ColumnTitle] but [Noise],
    whatever the [ipaddress] module. *)
Lemma padded_title_is_not_column_title :
  PyStr.lower (PyStr.strip " IP Address ") = "ip address"
  /\ String.eqb (PyStr.lower " IP Address ") "ip address" = false
  /\ forall ipaddress : IpAddressModule,
       classify ipaddress [VStr " IP Address "] = Ok Noise.
Proof.
  repeat split; try reflexivity.
  intros ipaddress.
  exact (proj2 (proj2 (trimmed_title_kind ipaddress " IP Address " [] eq_refl))).
Qed.

(** C8 (amended). A row whose first cell is a text that lower-cased (not
    trimmed) equals ["ip address"] is [ColumnTitle].  A row whose first cell
    equals it only once trimmed, such as [" IP Address "], is [Noise].
    Either way the row has no intent, and the loop body changes neither the
    importer (counters, client) nor the current subnet, in any letter case. *)
Theorem column_title_row {S R : Type} (ipaddress : IpAddressModule)
    (pynetbox : NetBox S R) (DRY_RUN : bool) (text : string)
    (rest : list PyVal) (vars : LoopVars) (w : Importer S) :
  (PyStr.lower text = "ip address" ->
   classify ipaddress (VStr text :: rest) = Ok ColumnTitle
   /\ parse ipaddress [VStr text :: rest] = []
   /\ process_row ipaddress pynetbox DRY_RUN (VStr text :: rest) vars w
      = (Ok vars, w))
  /\ (PyStr.lower (PyStr.strip text) = "ip address" ->
      classify ipaddress (VStr text :: rest)
      = Ok (if String.eqb (PyStr.lower text) "ip address"
            then ColumnTitle else Noise)
      /\ parse ipaddress [VStr text :: rest] = []
      /\ process_row ipaddress pynetbox DRY_RUN (VStr text :: rest) vars w
         = (Ok vars, w)).
Proof.
  split.
  - intros Htitle.
    destruct (title_has_no_separator _ Htitle) as (Hslash & _).
    assert (Hkind : classify ipaddress (VStr text :: rest) = Ok ColumnTitle).
    { unfold classify, parse_subnet_header. rewrite Hslash.
      cbn [negb isinstance_str py_str andb]. now rewrite Htitle. }
    split; [exact Hkind|]. split.
    + cbn [parse]. now rewrite Hkind.
    + now rewrite process_row_classify, Hkind.
  - intros Htrim.
    destruct (trimmed_title_kind ipaddress text rest Htrim) as (_ & _ & Hkind).
    split; [exact Hkind|]. split.
    + cbn [parse]. rewrite Hkind.
      now destruct (String.eqb (PyStr.lower text) "ip address").
    + rewrite process_row_classify, Hkind.
      now destruct (String.eqb (PyStr.lower text) "ip address").
Qed.

(** The title as phpIPAM writes it, and a padded title. *)
Lemma column_title_row_witness :
  (classify ref_ipaddress [VStr "IP address"; VStr "State"] = Ok ColumnTitle
   /\ parse ref_ipaddress [[VStr "IP address"; VStr "State"]] = []
   /\ process_row ref_ipaddress ref_netbox false
        [VStr "IP address"; VStr "State"]
        {| current_subnet := None; current_description := None |}
        (init_importer empty_store)
      = (Ok {| current_subnet := None; current_description := None |},
         init_importer empty_store))
  /\ (classify ref_ipaddress [VStr " IP Address "] = Ok Noise
      /\ parse ref_ipaddress [[VStr " IP Address "]] = []
      /\ process_row ref_ipaddress ref_netbox false [VStr " IP Address "]
           {| current_subnet := None; current_description := None |}
           (init_importer empty_store)
         = (Ok {| current_subnet := None; current_description := None |},
            init_importer empty_store)).
Proof.
  split.
  - exact (proj1 (column_title_row ref_ipaddress ref_netbox false "IP address"
                    [VStr "State"] _ _) eq_refl).
  - exact (proj2 (column_title_row ref_ipaddress ref_netbox false
                    " IP Address " [] _ _) eq_refl).
Defined.

(** C3. A row whose first cell, read as the code reads it ([str], then
    [strip]), is an address that [ip_address] accepts is [AddressData], with
    the state label, description, hostname, MAC, owner, device, port and
    note taken from columns 1 to 8.  In the code itself: each guarded read
    [row.iloc[i] if len(row) > i else None] returns the cell of column [i],
    or [None] for a column the row does not have, and never raises; the
    address branch of the loop body is the call of [create_ip_address] with
    the stripped address, the hostname of column 3, the description of
    column 2, and columns 4 to 8 as MAC, owner, device, port and note; and
    the loop body returns, with the importer that call leaves. *)
Theorem address_row_fields {S R : Type} (ipaddress : IpAddressModule)
    (pynetbox : NetBox S R) (DRY_RUN : bool) (first_col : PyVal)
    (rest : list PyVal) (v : IPVersion) (vars : LoopVars) (w : Importer S) :
  ip_address ipaddress (PyStr.strip (py_str first_col)) = Some v ->
  let row := first_col :: rest in
  let call :=
    create_ip_address ipaddress pynetbox DRY_RUN
      (PyStr.strip (py_str first_col))
      (cell row 3) (cell row 2) (cell row 4) (cell row 5) (cell row 6)
      (cell row 7) (cell row 8) in
  classify ipaddress row
  = Ok (AddressData (PyStr.strip (py_str first_col))
          (cell row 1) (cell row 2) (cell row 3) (cell row 4)
          (cell row 5) (cell row 6) (cell row 7) (cell row 8))
  /\ (forall i x, nth_error row i = Some x -> cell row i = x)
  /\ (forall i, length row <= i -> cell row i = VNone)
  /\ (forall i (w0 : Importer S),
        iloc_or_none row i w0 = (Ok (cell row i), w0))
  /\ address_row ipaddress pynetbox DRY_RUN row first_col w = call w
  /\ process_row ipaddress pynetbox DRY_RUN row vars w
     = (Ok vars, snd (call w)).
Proof.
  intros Hv row call.
  assert (Hnotna : pd_notna first_col = true).
  { pose proof (ip_address_separator ipaddress _ _ Hv) as Hsep.
    destruct first_col; try reflexivity; vm_compute in Hsep; discriminate. }
  assert (Hkind : classify ipaddress row
    = Ok (AddressData (PyStr.strip (py_str first_col))
            (cell row 1) (cell row 2) (cell row 3) (cell row 4)
            (cell row 5) (cell row 6) (cell row 7) (cell row 8))).
  { unfold row, classify. rewrite Hnotna, Hv.
    destruct first_col as [text|text truth| |]; try reflexivity.
    cbn [py_str] in Hv. cbn [isinstance_str py_str andb].
    unfold parse_subnet_header.
    rewrite (address_has_no_slash ipaddress _ _ Hv). cbn [negb].
    now rewrite (address_is_not_title ipaddress _ _ Hv). }
  split; [exact Hkind|]. split; [|split; [|split; [|split]]].
  - intros i x Hi. unfold cell. now apply nth_error_nth.
  - intros i Hi. unfold cell. now apply nth_overflow.
  - intros i w0. apply iloc_or_none_cell.
  - rewrite address_row_eq, Hnotna, Hv. reflexivity.
  - rewrite process_row_classify, Hkind. cbn [run_kind]. fold row call.
    destruct (create_ip_address_returns ipaddress pynetbox DRY_RUN
                (PyStr.strip (py_str first_col)) (cell row 3) (cell row 2)
                (cell row 4) (cell row 5) (cell row 6) (cell row 7)
                (cell row 8) w) as [w' Hw'].
    fold row call in Hw'. unfold bind. now rewrite Hw'.
Qed.

(** A row of four cells in apply mode: the hostname of column 3 and the
    description of column 2 reach [ip_addresses.create], and columns 4 to 8
    read [None]. *)
Lemma address_row_fields_witness :
  classify ref_ipaddress
    [VStr " 10.1.8.5 "; VStr "Used"; VStr "Server A"; VStr "host-a"]
  = Ok (AddressData "10.1.8.5" (VStr "Used") (VStr "Server A") (VStr "host-a")
          VNone VNone VNone VNone VNone)
  /\ process_row ref_ipaddress ref_netbox false
       [VStr " 10.1.8.5 "; VStr "Used"; VStr "Server A"; VStr "host-a"]
       {| current_subnet := None; current_description := None |}
       (init_importer empty_store)
     = (Ok {| current_subnet := None; current_description := None |},
        snd (create_ip_address ref_ipaddress ref_netbox false "10.1.8.5"
               (VStr "host-a") (VStr "Server A") VNone VNone VNone VNone VNone
               (init_importer empty_store))).
Proof.
  pose proof (address_row_fields ref_ipaddress ref_netbox false
                (VStr " 10.1.8.5 ")
                [VStr "Used"; VStr "Server A"; VStr "host-a"] V4
                {| current_subnet := None; current_description := None |}
                (init_importer empty_store) eq_refl)
    as (Hkind & _ & _ & _ & _ & Hrow).
  split; [exact Hkind | exact Hrow].
Defined.

Example address_row_calls :
  calls (snd (process_row ref_ipaddress ref_netbox false
                [VStr " 10.1.8.5 "; VStr "Used"; VStr "Server A";
                 VStr "host-a"]
                {| current_subnet := None; current_description := None |}
                (init_importer empty_store)))
  = [IpAddressesGet "10.1.8.5/32";
     IpAddressesCreate "10.1.8.5/32" (VStr "host-a") "Server A" "active"].
Proof. reflexivity. Qed.

(** ** Rows with a list in the first column *)

Section AnyRows.

Context {S R : Type}.
Variable ipaddress : IpAddressModule.
Variable pynetbox : NetBox S R.
Variable DRY_RUN : bool.

Implicit Types (w : Importer S) (vars : LoopVars).

(** A list of more than one element in the first column: the [if] of line
    205 raises, after the read of the second column, and the importer is as
    it was. *)
Lemma process_row_any_ambiguous (text : string) (rest : list PyVal) vars w :
  process_row_any ipaddress pynetbox DRY_RUN (ArrayFirst text None rest) vars w
  = (Raise ValueError, w).
Proof.
  cbn [process_row_any]. unfold bind. now rewrite iloc_or_none_cell.
Qed.

(** On rows of scalars the loop is [process_rows]. *)
Lemma process_rows_any_scalar (df : DataFrame) vars w :
  process_rows_any ipaddress pynetbox DRY_RUN (map ScalarRow df) vars w
  = process_rows ipaddress pynetbox DRY_RUN df vars w.
Proof.
  revert vars w. induction df as [|row rest IH]; intros vars w.
  - reflexivity.
  - cbn [map process_rows_any process_rows process_row_any]. unfold bind.
    destruct (process_row _ _ _ row vars w) as [[vars'|e] w'];
      [apply IH | reflexivity].
Qed.

Lemma process_data_any_scalar (df : DataFrame) w :
  process_data_any ipaddress pynetbox DRY_RUN (map ScalarRow df) w
  = process_data ipaddress pynetbox DRY_RUN df w.
Proof.
  unfold process_data_any, process_data, bind.
  now rewrite process_rows_any_scalar.
Qed.

(** The loop stops at a row on which the loop body raises: what was raised
    before it, or the exception of that row, and the importer of the rows
    before it. *)
Lemma process_rows_any_stop (r : AnyRow) (e : PyExc) (df1 df2 : AnyFrame)
    vars w :
  (forall vars0 w0,
     process_row_any ipaddress pynetbox DRY_RUN r vars0 w0 = (Raise e, w0)) ->
  process_rows_any ipaddress pynetbox DRY_RUN (df1 ++ r :: df2)%list vars w
  = (match fst (process_rows_any ipaddress pynetbox DRY_RUN df1 vars w) with
     | Ok _ => Raise e
     | Raise e' => Raise e'
     end,
     snd (process_rows_any ipaddress pynetbox DRY_RUN df1 vars w)).
Proof.
  intros Hr. revert vars w. induction df1 as [|r1 rest IH]; intros vars w.
  - cbn [app process_rows_any]. unfold bind. now rewrite Hr.
  - change ((r1 :: rest) ++ r :: df2)%list with (r1 :: (rest ++ r :: df2))%list.
    cbn [process_rows_any]. unfold bind.
    destruct (process_row_any _ _ _ r1 vars w) as [[vars'|e'] w'];
      [apply IH | reflexivity].
Qed.

Lemma process_data_any_stop (r : AnyRow) (e : PyExc) (df1 df2 : AnyFrame) w :
  (forall vars0 w0,
     process_row_any ipaddress pynetbox DRY_RUN r vars0 w0 = (Raise e, w0)) ->
  process_data_any ipaddress pynetbox DRY_RUN (df1 ++ r :: df2)%list w
  = (match fst (process_data_any ipaddress pynetbox DRY_RUN df1 w) with
     | Ok _ => Raise e
     | Raise e' => Raise e'
     end,
     snd (process_data_any ipaddress pynetbox DRY_RUN df1 w)).
Proof.
  intros Hr. unfold process_data_any, bind.
  rewrite (process_rows_any_stop r e df1 df2 _ w Hr).
  now destruct (process_rows_any _ _ _ df1 _ w) as [[vars'|e'] w'].
Qed.

End AnyRows.

(** C9, as stated, fails on two kinds of rows, whatever the [ipaddress]
    module, the client and the mode.  On a row without cells [row.iloc[0]]
    raises [IndexError] outside every [try].  On a row whose first cell
    holds a list of more than one element, the test [if pd.notna(first_col)]
    of line 205, outside the [try] of line 206, raises [ValueError].
    [process_data] lets both out. *)
Lemma unreadable_rows_raise :
  classify ref_ipaddress [] = Raise IndexError
  /\ fst (process_data ref_ipaddress ref_netbox true [[]]
            (init_importer empty_store)) = Raise IndexError
  /\ fst (process_data_any ref_ipaddress ref_netbox true
            [ArrayFirst "['10.1.8.5', '10.1.8.6']" None [VStr "Used"]]
            (init_importer empty_store)) = Raise ValueError
  /\ forall (S R : Type) (ipaddress : IpAddressModule) (pynetbox : NetBox S R)
       (DRY_RUN : bool) (vars : LoopVars) (w : Importer S)
       (text : string) (rest : list PyVal),
       process_row ipaddress pynetbox DRY_RUN [] vars w = (Raise IndexError, w)
       /\ process_data ipaddress pynetbox DRY_RUN [[]] w = (Raise IndexError, w)
       /\ process_row_any ipaddress pynetbox DRY_RUN
            (ArrayFirst text None rest) vars w = (Raise ValueError, w)
       /\ process_data_any ipaddress pynetbox DRY_RUN
            [ArrayFirst text None rest] w = (Raise ValueError, w).
Proof.
  split; [reflexivity|]. split; [reflexivity|]. split; [reflexivity|].
  intros S R ipaddress pynetbox DRY_RUN vars w text rest.
  split; [reflexivity|]. split; [reflexivity|]. split.
  - apply process_row_any_ambiguous.
  - unfold process_data_any, bind. cbn [process_rows_any]. unfold bind.
    now rewrite process_row_any_ambiguous.
Qed.

(** C9 (amended). On a data frame whose cells are scalars (text, a number
    or another scalar object, an empty cell, [None]; no list and no array)
    and every row of which has a first cell, [process_data] returns; each
    row has a kind and the loop body returns on it.  A row whose first cell
    is no valid address and that is not a subnet header is [Noise] (or
    [ColumnTitle]): it has no intent, and the loop body changes neither the
    importer, its [errors] counter included, nor the current subnet.  Such
    a data frame is run by the loop on any rows as by [process_data]. *)
Theorem rows_never_raise {S R : Type} (ipaddress : IpAddressModule)
    (pynetbox : NetBox S R) (DRY_RUN : bool) (df : DataFrame)
    (w : Importer S) :
  (forall row, In row df -> row <> []) ->
  process_data_any ipaddress pynetbox DRY_RUN (map ScalarRow df) w
  = process_data ipaddress pynetbox DRY_RUN df w
  /\ fst (process_data ipaddress pynetbox DRY_RUN df w) = Ok tt
  /\ forall row, In row df ->
       (exists k, classify ipaddress row = Ok k)
       /\ (forall vars w0, exists vars' w',
             process_row ipaddress pynetbox DRY_RUN row vars w0 = (Ok vars', w'))
       /\ (ip_address ipaddress (PyStr.strip (py_str (cell row 0))) = None ->
           (forall cidr description,
              classify ipaddress row <> Ok (SubnetHeader cidr description)) ->
           (classify ipaddress row = Ok Noise
            \/ classify ipaddress row = Ok ColumnTitle)
           /\ parse ipaddress [row] = []
           /\ forall vars w0,
                process_row ipaddress pynetbox DRY_RUN row vars w0 = (Ok vars, w0)).
Proof.
  intros Hrows. split; [apply process_data_any_scalar|]. split.
  - unfold process_data, bind.
    destruct (process_rows_returns ipaddress pynetbox DRY_RUN df
                {| current_subnet := None; current_description := None |} w Hrows)
      as [vars' Hret].
    destruct (process_rows _ _ _ _ _ _) as [[vars''|e] w'];
      [reflexivity | discriminate].
  - intros row Hin.
    destruct row as [|first_col rest]; [now destruct (Hrows [] Hin)|].
    assert (Hk : exists k, classify ipaddress (first_col :: rest) = Ok k)
      by (unfold classify; eauto).
    destruct Hk as [k Hk]. split; [eauto|]. split.
    + intros vars w0. rewrite process_row_classify, Hk.
      pose proof (run_kind_intent ipaddress pynetbox DRY_RUN k vars w0) as Hrun.
      destruct (intent_of k) as [i|]; [destruct Hrun as [vars' Hrun]|]; eauto.
    + intros Hbad Hnohead. change (cell (first_col :: rest) 0) with first_col in Hbad.
      assert (Hkind : k = Noise \/ k = ColumnTitle).
      { unfold classify in Hk. rewrite Hbad in Hk.
        destruct (parse_subnet_header ipaddress first_col)
          as [[subnet description]|] eqn:Hparse.
        - destruct (PyStr.nonempty subnet) eqn:Hne.
          + exfalso. apply (Hnohead subnet description).
            unfold classify. now rewrite Hparse, Hne.
          + destruct (isinstance_str first_col && _), (pd_notna first_col);
              injection Hk as <-; auto.
        - destruct (isinstance_str first_col && _), (pd_notna first_col);
            injection Hk as <-; auto. }
      split; [destruct Hkind as [-> | ->]; auto|]. split.
      * cbn [parse]. rewrite Hk. now destruct Hkind as [-> | ->].
      * intros vars w0. rewrite process_row_classify, Hk.
        now destruct Hkind as [-> | ->].
Qed.

(** A data frame of malformed first cells: a number, an empty cell, [None],
    free text, and a header whose network does not parse. *)
Lemma rows_never_raise_witness :
  fst (process_data ref_ipaddress ref_netbox false
         [[VOther "42.0" true]; [VNaN; VStr "x"]; [VNone]; [VStr "not-an-ip"];
          [VStr "10.1.8.999/24 - broken"]]
         (init_importer empty_store)) = Ok tt.
Proof.
  refine (proj1 (proj2 (rows_never_raise ref_ipaddress ref_netbox false
                          [[VOther "42.0" true]; [VNaN; VStr "x"]; [VNone];
                           [VStr "not-an-ip"]; [VStr "10.1.8.999/24 - broken"]]
                          (init_importer empty_store) _))).
  intros row Hin. cbn [In] in Hin.
  repeat (destruct Hin as [<- | Hin]; [discriminate|]). destruct Hin.
Defined.

(** * Dry runs *)

Section DryRun.

Context {S R : Type}.
Variable ipaddress : IpAddressModule.
Variable pynetbox : NetBox S R.

(** In a dry run an intent touches [prefixes_created] or [ips_created] and
    nothing else. *)
Lemma reconcile_dry (intents : list Intent) (w : Importer S) :
  let w' := snd (reconcile ipaddress pynetbox true intents w) in
  nb w' = nb w /\ calls w' = calls w
  /\ prefixes_created (stats w')
     = prefixes_created (stats w) + count_subnets intents
  /\ prefixes_skipped (stats w') = prefixes_skipped (stats w)
  /\ ips_created (stats w')
     = ips_created (stats w) + count_valid_addresses ipaddress intents
  /\ ips_skipped (stats w') = ips_skipped (stats w)
  /\ errors (stats w') = errors (stats w).
Proof.
  revert w. induction intents as [|i rest IH]; intros w.
  - cbn. repeat split; lia.
  - cbv zeta. rewrite reconcile_cons.
    unfold count_subnets, count_valid_addresses in *.
    destruct i as [cidr description|address hostname description mac owner device port note];
      cbn [apply_intent List.filter is_subnet_intent is_valid_address_intent].
    + unfold bind. rewrite create_prefix_dry. unfold ret. cbn [snd].
      destruct (IH {| nb := nb w; stats := incr_prefixes_created (stats w);
                      calls := calls w |})
        as (Hnb & Hcalls & Hpc & Hps & Hic & His & Herr).
      cbn in Hnb, Hcalls, Hpc, Hps, Hic, His, Herr. cbn [length].
      repeat split; try assumption; lia.
    + destruct (ip_address ipaddress address) as [v|] eqn:Hv.
      * rewrite (create_ip_address_dry ipaddress pynetbox _ _ _ _ _ _ _ _ _ _ Hv).
        cbn [snd].
        destruct (IH {| nb := nb w; stats := incr_ips_created (stats w);
                        calls := calls w |})
          as (Hnb & Hcalls & Hpc & Hps & Hic & His & Herr).
        cbn in Hnb, Hcalls, Hpc, Hps, Hic, His, Herr. cbn [length].
        repeat split; try assumption; lia.
      * rewrite (create_ip_address_invalid ipaddress pynetbox _ _ _ _ _ _ _ _ _ _ Hv).
        cbn [snd]. apply IH.
Qed.

End DryRun.

(** C6. In a dry run no call is issued to the client for any sequence of
    intents (the call log and the client state stay as they were), every
    subnet intent adds one to [prefixes_created] and every address intent
    with a valid address adds one to [ips_created]; the same holds for
    [process_data] on any data frame. *)
Theorem dry_run_makes_no_client_call {S R : Type} (ipaddress : IpAddressModule)
    (pynetbox : NetBox S R) (intents : list Intent) (df : DataFrame)
    (w : Importer S) :
  (let w' := snd (reconcile ipaddress pynetbox true intents w) in
   calls w' = calls w /\ nb w' = nb w
   /\ prefixes_created (stats w')
      = prefixes_created (stats w) + count_subnets intents
   /\ ips_created (stats w')
      = ips_created (stats w) + count_valid_addresses ipaddress intents)
  /\ (let w' := snd (process_data ipaddress pynetbox true df w) in
      calls w' = calls w /\ nb w' = nb w
      /\ prefixes_created (stats w')
         = prefixes_created (stats w) + count_subnets (parse ipaddress df)
      /\ ips_created (stats w')
         = ips_created (stats w)
           + count_valid_addresses ipaddress (parse ipaddress df)).
Proof.
  split; cbv zeta; [|rewrite process_data_parse];
    match goal with
    | |- context [reconcile _ _ _ ?l _] =>
        destruct (reconcile_dry ipaddress pynetbox l w)
          as (Hnb & Hcalls & Hpc & _ & Hic & _)
    end; auto.
Qed.

(** C10. A dry run never counts a skip: from a fresh importer, over any
    client state, [prefixes_skipped] and [ips_skipped] are 0 after any
    sequence of intents, and every subnet intent and every valid address
    intent is counted as created, also when the client already holds the
    record; the same holds for [process_data] on any data frame. *)
Theorem dry_run_skips_nothing {S R : Type} (ipaddress : IpAddressModule)
    (pynetbox : NetBox S R) (intents : list Intent) (df : DataFrame) (s : S) :
  (let w' := snd (reconcile ipaddress pynetbox true intents (init_importer s)) in
   prefixes_skipped (stats w') = 0 /\ ips_skipped (stats w') = 0
   /\ prefixes_created (stats w') = count_subnets intents
   /\ ips_created (stats w') = count_valid_addresses ipaddress intents)
  /\ (let w' := snd (process_data ipaddress pynetbox true df (init_importer s)) in
      prefixes_skipped (stats w') = 0 /\ ips_skipped (stats w') = 0).
Proof.
  split; cbv zeta; [|rewrite process_data_parse];
    match goal with
    | |- context [reconcile _ _ _ ?l _] =>
        destruct (reconcile_dry ipaddress pynetbox l (init_importer s))
          as (_ & _ & Hpc & Hps & Hic & His & _)
    end; auto.
Qed.

(** * Keys and descriptions sent to the client *)

Section Truncation.

Import PyStr.

Lemma length_slice_to (n : nat) (s : string) :
  String.length (slice_to n s) = Nat.min n (String.length s).
Proof.
  revert s. induction n as [|n IH]; intros [|c s]; try reflexivity.
  change (slice_to (Datatypes.S n) (String c s)) with (String c (slice_to n s)).
  cbn [String.length Nat.min]. now rewrite IH.
Qed.

Lemma slice_to_slice_from (n : nat) (s : string) :
  s = slice_to n s ++ slice_from n s.
Proof.
  revert s. induction n as [|n IH]; intros [|c s]; try reflexivity.
  change (slice_to (Datatypes.S n) (String c s)) with (String c (slice_to n s)).
  cbn [slice_from]. rewrite append_cons. now rewrite <- IH.
Qed.

(** [x[:200] if x else ""] is [x[:200]]. *)
Lemma slice_to_guarded (n : nat) (s : string) :
  (if nonempty s then slice_to n s else "") = slice_to n s.
Proof. destruct s; [now destruct n | reflexivity]. Qed.

(** [" | ".join(parts) if parts else ""] is [" | ".join(parts)]. *)
Lemma full_description_join (description note : PyVal) :
  full_description description note
  = join " | " (desc_parts description note).
Proof. unfold full_description. now destruct (desc_parts description note). Qed.

Lemma ip_with_mask_suffix (ip : string) (v : IPVersion) :
  ip_with_mask ip v = ip ++ match v with V4 => "/32" | V6 => "/128" end.
Proof. now destruct v. Qed.

End Truncation.

(** C4. In apply mode, for an address that [ip_address] accepts, the key is
    the address followed by ["/32"] when its version is 4 and by ["/128"]
    when it is 6; [ip_addresses.get] is called with that key, and when it
    answers [None], [ip_addresses.create] is called with the same key as
    [address]; no other call is issued. *)
Theorem lookup_key_is_full_length_mask {S R : Type}
    (ipaddress : IpAddressModule) (pynetbox : NetBox S R) (ip : string)
    (hostname description mac owner device port note : PyVal)
    (w : Importer S) (v : IPVersion) :
  ip_address ipaddress ip = Some v ->
  let key := ip ++ match v with V4 => "/32" | V6 => "/128" end in
  let w' := snd (create_ip_address ipaddress pynetbox false ip hostname
                   description mac owner device port note w) in
  match fst (ip_addresses_get pynetbox key (nb w)) with
  | Ok None =>
      exists dns_name stored,
        calls w' = (calls w ++ [IpAddressesGet key;
                                IpAddressesCreate key dns_name stored "active"])%list
  | _ => calls w' = (calls w ++ [IpAddressesGet key])%list
  end.
Proof.
  intros Hv key w'. unfold w', key. rewrite <- ip_with_mask_suffix.
  destruct (ip_addresses_get pynetbox (ip_with_mask ip v) (nb w))
    as [[[r|]|e] s1] eqn:Hget; cbn [fst].
  - now erewrite create_ip_address_exists by eassumption.
  - rewrite (create_ip_address_new ipaddress pynetbox _ hostname description
               mac owner device port note _ _ _ Hv Hget).
    destruct (ip_addresses_create _ _ _ _ _ _) as [[r|e] s2]; cbn [snd calls];
      eauto.
  - now erewrite create_ip_address_get_raises by eassumption.
Qed.

(** An IPv4 and an IPv6 address against the empty reference store. *)
Lemma lookup_key_is_full_length_mask_witness :
  (exists dns_name stored,
     calls (snd (create_ip_address ref_ipaddress ref_netbox false "10.1.8.5"
                   (VStr "host-a") (VStr "Server A") VNaN VNaN VNaN VNaN VNaN
                   (init_importer empty_store)))
     = [IpAddressesGet "10.1.8.5/32";
        IpAddressesCreate "10.1.8.5/32" dns_name stored "active"])
  /\ (exists dns_name stored,
        calls (snd (create_ip_address ref_ipaddress ref_netbox false
                      "2001:db8::1" VNaN VNaN VNaN VNaN VNaN VNaN VNaN
                      (init_importer empty_store)))
        = [IpAddressesGet "2001:db8::1/128";
           IpAddressesCreate "2001:db8::1/128" dns_name stored "active"]).
Proof.
  split.
  - exact (lookup_key_is_full_length_mask ref_ipaddress ref_netbox "10.1.8.5"
             (VStr "host-a") (VStr "Server A") VNaN VNaN VNaN VNaN VNaN
             (init_importer empty_store) V4 eq_refl).
  - exact (lookup_key_is_full_length_mask ref_ipaddress ref_netbox
             "2001:db8::1" VNaN VNaN VNaN VNaN VNaN VNaN VNaN
             (init_importer empty_store) V6 eq_refl).
Defined.

(** C5. In apply mode, when the address is valid and not yet in NetBox, the
    description sent to [ip_addresses.create] is the join with [" | "] of
    the description cell (when it is not null and not empty) and of
    ["Note: "] followed by the note (when the note is not null and not
    empty), cut to its first 200 characters.  When the prefix is not yet in
    NetBox, the description sent to [prefixes.create] is the subnet
    description cut to its first 200 characters.  A text of 250 characters
    is sent as exactly its first 200. *)
Theorem stored_description_is_truncated {S R : Type}
    (ipaddress : IpAddressModule) (pynetbox : NetBox S R) (ip : string)
    (hostname description mac owner device port note : PyVal)
    (subnet subnet_description : string) (w : Importer S) (v : IPVersion) :
  (ip_address ipaddress ip = Some v ->
   fst (ip_addresses_get pynetbox (ip_with_mask ip v) (nb w)) = Ok None ->
   let joined :=
     PyStr.join " | "
       ((if pd_notna description && truthy description
         then [py_str description] else [])
        ++ (if pd_notna note && truthy note
            then ["Note: " ++ py_str note] else [])) in
   let stored := PyStr.slice_to 200 joined in
   calls (snd (create_ip_address ipaddress pynetbox false ip hostname
                 description mac owner device port note w))
   = (calls w
      ++ [IpAddressesGet (ip_with_mask ip v);
          IpAddressesCreate (ip_with_mask ip v)
            (if pd_notna hostname then hostname else VStr "") stored "active"])%list
   /\ String.length stored <= 200
   /\ joined = stored ++ PyStr.slice_from 200 joined
   /\ (String.length joined = 250 -> String.length stored = 200))
  /\ (fst (prefixes_get pynetbox subnet (nb w)) = Ok None ->
      let stored := PyStr.slice_to 200 subnet_description in
      calls (snd (create_prefix pynetbox false subnet subnet_description w))
      = (calls w ++ [PrefixesGet subnet;
                     PrefixesCreate subnet stored "active"])%list
      /\ String.length stored <= 200
      /\ subnet_description = stored ++ PyStr.slice_from 200 subnet_description
      /\ (String.length subnet_description = 250 -> String.length stored = 200)).
Proof.
  split.
  - intros Hv Hget joined stored.
    destruct (ip_addresses_get pynetbox (ip_with_mask ip v) (nb w))
      as [got s1] eqn:Hcall.
    cbn [fst] in Hget. subst got.
    split; [|split; [|split]].
    + rewrite (create_ip_address_new ipaddress pynetbox _ hostname description
                 mac owner device port note _ _ _ Hv Hcall).
      rewrite slice_to_guarded, full_description_join.
      change (PyStr.slice_to 200 (PyStr.join " | " (desc_parts description note)))
        with stored.
      now destruct (ip_addresses_create _ _ _ _ _ _) as [[r|e] s2].
    + unfold stored. rewrite length_slice_to. lia.
    + apply slice_to_slice_from.
    + intros Hlen. unfold stored. rewrite length_slice_to, Hlen. reflexivity.
  - intros Hget stored.
    destruct (prefixes_get pynetbox subnet (nb w)) as [got s1] eqn:Hcall.
    cbn [fst] in Hget. subst got.
    split; [|split; [|split]].
    + rewrite (create_prefix_new pynetbox _ subnet_description _ _ Hcall).
      cbv zeta. rewrite slice_to_guarded. fold stored.
      now destruct (prefixes_create _ _ _ _ _) as [[r|e] s2].
    + unfold stored. rewrite length_slice_to. lia.
    + apply slice_to_slice_from.
    + intros Hlen. unfold stored. rewrite length_slice_to, Hlen. reflexivity.
Qed.

(** A description and a note, and a description of 250 characters, against
    the empty reference store. *)
Lemma stored_description_is_truncated_witness :
  calls (snd (create_ip_address ref_ipaddress ref_netbox false "10.1.8.5"
                (VStr "host-a") (VStr "Server A") VNaN VNaN VNaN VNaN
                (VStr "rack 3") (init_importer empty_store)))
  = [IpAddressesGet "10.1.8.5/32";
     IpAddressesCreate "10.1.8.5/32" (VStr "host-a")
       "Server A | Note: rack 3" "active"]
  /\ calls (snd (create_prefix ref_netbox false "10.1.8.0/24"
                   (PyStr.repeat "x" 250) (init_importer empty_store)))
     = [PrefixesGet "10.1.8.0/24";
        PrefixesCreate "10.1.8.0/24" (PyStr.repeat "x" 200) "active"].
Proof.
  pose proof (stored_description_is_truncated ref_ipaddress ref_netbox
                "10.1.8.5" (VStr "host-a") (VStr "Server A") VNaN VNaN VNaN
                VNaN (VStr "rack 3") "10.1.8.0/24" (PyStr.repeat "x" 250)
                (init_importer empty_store) V4) as [Haddr Hprefix].
  split.
  - exact (proj1 (Haddr eq_refl eq_refl)).
  - exact (proj1 (Hprefix eq_refl)).
Defined.

(** C7 on the failing input: in apply mode, with a client whose calls raise
    [ValueError] (as [pynetbox]'s [get] does when the lookup matches more
    than one record), [create_ip_address] issues the lookup and returns with
    [errors] still 0, where [create_prefix] on the same client counts 1 and
    [create_ip_address] on a client raising another exception counts 1. *)
Theorem address_lookup_value_error_is_not_counted :
  let address_run e :=
    snd (create_ip_address ref_ipaddress (failing_netbox e) false "10.1.8.5"
           VNaN VNaN VNaN VNaN VNaN VNaN VNaN (init_importer 0)) in
  let prefix_run e :=
    snd (create_prefix (failing_netbox e) false "10.1.8.0/24" ""
           (init_importer 0)) in
  calls (address_run ValueError) = [IpAddressesGet "10.1.8.5/32"]
  /\ errors (stats (address_run ValueError)) = 0
  /\ errors (stats (address_run OtherException)) = 1
  /\ calls (prefix_run ValueError) = [PrefixesGet "10.1.8.0/24"]
  /\ errors (stats (prefix_run ValueError)) = 1.
Proof. repeat split; reflexivity. Qed.

(** * Running twice in apply mode *)

Section Idempotence.

Context {S R : Type}.
Variable ipaddress : IpAddressModule.
Variable pynetbox : NetBox S R.
Hypothesis contract : LookupBeforeWrite pynetbox.

Implicit Types (w : Importer S) (i : Intent).


Lemma keeps_found_refl (s : S) : keeps_found pynetbox s s.
Proof. split; auto. Qed.

Lemma keeps_found_trans (s1 s2 s3 : S) :
  keeps_found pynetbox s1 s2 -> keeps_found pynetbox s2 s3 -> keeps_found pynetbox s1 s3.
Proof. intros [H1 H2] [H3 H4]. split; auto. Qed.

Lemma intent_stored_kept i (s s' : S) :
  keeps_found pynetbox s s' -> intent_stored ipaddress pynetbox i s -> intent_stored ipaddress pynetbox i s'.
Proof.
  intros [Hp Ha]. destruct i; cbn [intent_stored]; auto.
Qed.

(** One intent in apply mode: afterwards the client holds it, and nothing
    that was found is lost. *)
Lemma apply_intent_stores i w :
  let w' := snd (apply_intent ipaddress pynetbox false i w) in
  intent_stored ipaddress pynetbox i (nb w') /\ keeps_found pynetbox (nb w) (nb w').
Proof.
  destruct i as [cidr description|address hostname description mac owner device port note];
    cbn [apply_intent intent_stored]; cbv zeta.
  - destruct (prefixes_get_reads _ contract cidr (nb w)) as [[r|] Hget];
      unfold bind.
    + rewrite (create_prefix_exists pynetbox _ description _ _ _ Hget).
      cbn. split; [|apply keeps_found_refl].
      exists r. now rewrite Hget.
    + rewrite (create_prefix_new pynetbox _ description _ _ Hget).
      destruct (prefixes_create_stores _ contract cidr
                  (if PyStr.nonempty description
                   then PyStr.slice_to 200 description else "")
                  "active" (nb w)) as (r & s' & Hcreate & Hfound & Hkeep).
      rewrite Hcreate. cbn. split; [exact Hfound | exact Hkeep].
  - destruct (ip_address ipaddress address) as [v|] eqn:Hv.
    + destruct (ip_addresses_get_reads _ contract (ip_with_mask address v) (nb w))
        as [[r|] Hget].
      * rewrite (create_ip_address_exists ipaddress pynetbox _ hostname
                   description mac owner device port note _ _ _ _ Hv Hget).
        cbn. split; [|apply keeps_found_refl].
        intros v' Hv'. injection Hv' as <-. exists r. now rewrite Hget.
      * rewrite (create_ip_address_new ipaddress pynetbox _ hostname
                   description mac owner device port note _ _ _ Hv Hget).
        cbv zeta.
        destruct (ip_addresses_create_stores _ contract
                    (ip_with_mask address v)
                    (if pd_notna hostname then hostname else VStr "")
                    (if PyStr.nonempty (full_description description note)
                     then PyStr.slice_to 200 (full_description description note)
                     else "")
                    "active" (nb w)) as (r & s' & Hcreate & Hfound & Hkeep).
        rewrite Hcreate. cbn. split; [|exact Hkeep].
        intros v' Hv'. now injection Hv' as <-.
    + rewrite (create_ip_address_invalid ipaddress pynetbox _ _ hostname
                 description mac owner device port note _ Hv).
      cbn. split; [discriminate | apply keeps_found_refl].
Qed.

Lemma reconcile_keeps_found (intents : list Intent) w :
  keeps_found pynetbox (nb w) (nb (snd (reconcile ipaddress pynetbox false intents w))).
Proof.
  revert w. induction intents as [|i rest IH]; intros w.
  - apply keeps_found_refl.
  - rewrite reconcile_cons.
    eapply keeps_found_trans; [apply (apply_intent_stores i w) | apply IH].
Qed.

(** After a run in apply mode the client holds every intent of the run. *)
Lemma reconcile_stores_all (intents : list Intent) w i :
  In i intents ->
  intent_stored ipaddress pynetbox i (nb (snd (reconcile ipaddress pynetbox false intents w))).
Proof.
  revert w. induction intents as [|j rest IH]; intros w Hin; [destruct Hin|].
  rewrite reconcile_cons. destruct Hin as [->|Hin].
  - eapply intent_stored_kept; [apply reconcile_keeps_found|].
    apply (apply_intent_stores i w).
  - now apply IH.
Qed.

(** A run over intents the client already holds only looks up: it creates
    nothing and counts every subnet and every valid address as skipped. *)
Lemma reconcile_all_stored (intents : list Intent) w :
  (forall i, In i intents -> intent_stored ipaddress pynetbox i (nb w)) ->
  let w' := snd (reconcile ipaddress pynetbox false intents w) in
  nb w' = nb w
  /\ prefixes_created (stats w') = prefixes_created (stats w)
  /\ prefixes_skipped (stats w')
     = prefixes_skipped (stats w) + count_subnets intents
  /\ ips_created (stats w') = ips_created (stats w)
  /\ ips_skipped (stats w')
     = ips_skipped (stats w) + count_valid_addresses ipaddress intents
  /\ errors (stats w') = errors (stats w).
Proof.
  revert w. induction intents as [|i rest IH]; intros w Hall.
  - cbn. repeat split; lia.
  - cbv zeta. rewrite reconcile_cons.
    pose proof (Hall i (or_introl eq_refl)) as Hi.
    assert (Hrest : forall j, In j rest -> intent_stored ipaddress pynetbox j (nb w))
      by (intros j Hj; apply Hall; now right).
    unfold count_subnets, count_valid_addresses in *.
    destruct i as [cidr description|address hostname description mac owner device port note];
      cbn [apply_intent intent_stored List.filter is_subnet_intent
           is_valid_address_intent] in *.
    + destruct Hi as [r Hr].
      destruct (prefixes_get_reads _ contract cidr (nb w)) as [o Hget].
      rewrite Hget in Hr. cbn [fst] in Hr. injection Hr as ->.
      unfold bind.
      rewrite (create_prefix_exists pynetbox _ description _ _ _ Hget).
      unfold ret. cbn [snd].
      destruct (IH {| nb := nb w; stats := incr_prefixes_skipped (stats w);
                      calls := calls w ++ [PrefixesGet cidr] |} Hrest)
        as (Hnb & Hpc & Hps & Hic & His & Herr).
      cbn in Hnb, Hpc, Hps, Hic, His, Herr. cbn [length].
      repeat split; try assumption; lia.
    + destruct (ip_address ipaddress address) as [v|] eqn:Hv.
      * destruct (Hi v eq_refl) as [r Hr].
        destruct (ip_addresses_get_reads _ contract (ip_with_mask address v)
                    (nb w)) as [o Hget].
        rewrite Hget in Hr. cbn [fst] in Hr. injection Hr as ->.
        rewrite (create_ip_address_exists ipaddress pynetbox _ hostname
                   description mac owner device port note _ _ _ _ Hv Hget).
        cbn [snd].
        destruct (IH {| nb := nb w; stats := incr_ips_skipped (stats w);
                        calls := calls w ++ [IpAddressesGet (ip_with_mask address v)] |}
                     Hrest)
          as (Hnb & Hpc & Hps & Hic & His & Herr).
        cbn in Hnb, Hpc, Hps, Hic, His, Herr. cbn [length].
        repeat split; try assumption; lia.
      * rewrite (create_ip_address_invalid ipaddress pynetbox _ _ hostname
                   description mac owner device port note _ Hv).
        cbn [snd]. now apply IH.
Qed.

End Idempotence.

(** The reference store keeps the contract. *)
Lemma ref_netbox_contract : LookupBeforeWrite ref_netbox.
Proof.
  split.
  - intros prefix s. now exists (st_prefixes s !! prefix).
  - intros address s. now exists (st_addresses s !! address).
  - intros prefix description status s. do 2 eexists.
    split; [reflexivity|]. split; [|split].
    + eexists. cbn. now rewrite lookup_insert_eq.
    + intros p [r Hr]. cbn in Hr. unfold prefix_found. cbn.
      destruct (decide (prefix = p)) as [->|Hne].
      * eexists. now rewrite lookup_insert_eq.
      * exists r. now rewrite lookup_insert_ne.
    + intros a Ha. exact Ha.
  - intros address dns_name description status s. do 2 eexists.
    split; [reflexivity|]. split; [|split].
    + eexists. cbn. now rewrite lookup_insert_eq.
    + intros p Hp. exact Hp.
    + intros a [r Hr]. cbn in Hr. unfold address_found. cbn.
      destruct (decide (address = a)) as [->|Hne].
      * eexists. now rewrite lookup_insert_eq.
      * exists r. now rewrite lookup_insert_ne.
Qed.

(** C1. With a client that keeps the lookup-before-write contract, for every
    sequence of intents and every client state: after a first run in apply
    mode, a second run in apply mode against the resulting state creates no
    prefix and no address, counts every subnet intent in [prefixes_skipped]
    and every address intent with a valid address in [ips_skipped], counts
    no error and leaves the client state as it is.  The same holds for
    [process_data] run twice on a data frame. *)
Theorem apply_twice_skips_everything {S R : Type} (ipaddress : IpAddressModule)
    (pynetbox : NetBox S R) (intents : list Intent) (df : DataFrame) (s : S) :
  LookupBeforeWrite pynetbox ->
  (let first :=
     snd (reconcile ipaddress pynetbox false intents (init_importer s)) in
   let second :=
     snd (reconcile ipaddress pynetbox false intents (init_importer (nb first))) in
   prefixes_created (stats second) = 0
   /\ ips_created (stats second) = 0
   /\ prefixes_skipped (stats second) = count_subnets intents
   /\ ips_skipped (stats second) = count_valid_addresses ipaddress intents
   /\ errors (stats second) = 0
   /\ nb second = nb first)
  /\ (let first :=
        snd (process_data ipaddress pynetbox false df (init_importer s)) in
      let second :=
        snd (process_data ipaddress pynetbox false df (init_importer (nb first))) in
      prefixes_created (stats second) = 0
      /\ ips_created (stats second) = 0
      /\ prefixes_skipped (stats second) = count_subnets (parse ipaddress df)
      /\ ips_skipped (stats second)
         = count_valid_addresses ipaddress (parse ipaddress df)
      /\ errors (stats second) = 0
      /\ nb second = nb first).
Proof.
  intros contract.
  assert (Hrun : forall l,
    let first := snd (reconcile ipaddress pynetbox false l (init_importer s)) in
    let second :=
      snd (reconcile ipaddress pynetbox false l (init_importer (nb first))) in
    prefixes_created (stats second) = 0
    /\ ips_created (stats second) = 0
    /\ prefixes_skipped (stats second) = count_subnets l
    /\ ips_skipped (stats second) = count_valid_addresses ipaddress l
    /\ errors (stats second) = 0
    /\ nb second = nb first).
  { intros l first second.
    destruct (reconcile_all_stored ipaddress pynetbox contract l
                (init_importer (nb first)))
      as (Hnb & Hpc & Hps & Hic & His & Herr).
    - intros i Hi. cbn [init_importer nb].
      now apply reconcile_stores_all.
    - fold second in Hnb, Hpc, Hps, Hic, His, Herr.
      cbn in Hnb, Hpc, Hps, Hic, His, Herr. repeat split; assumption. }
  split.
  - apply Hrun.
  - cbv zeta. rewrite !process_data_parse. apply Hrun.
Qed.

(** The sample export, run twice against the reference store, first empty:
    the second run skips the prefix and both addresses. *)
Lemma apply_twice_skips_everything_witness :
  let df :=
    [[VStr "IP address"; VStr "State"];
     [VStr "10.1.8.0/24 - CTRL-W27-04-LANtime (vlan: 108)"];
     [VStr "10.1.8.5"; VStr "Used"; VStr "Server A"; VStr "host-a"];
     [VStr "not-an-ip"];
     [VStr "2001:db8::1"; VStr "Used"]] in
  let first :=
    snd (process_data ref_ipaddress ref_netbox false df
           (init_importer empty_store)) in
  let second :=
    snd (process_data ref_ipaddress ref_netbox false df
           (init_importer (nb first))) in
  prefixes_created (stats second) = 0
  /\ ips_created (stats second) = 0
  /\ prefixes_skipped (stats second) = 1
  /\ ips_skipped (stats second) = 2
  /\ errors (stats second) = 0
  /\ nb second = nb first.
Proof.
  exact (proj2 (apply_twice_skips_everything ref_ipaddress ref_netbox []
                  [[VStr "IP address"; VStr "State"];
                   [VStr "10.1.8.0/24 - CTRL-W27-04-LANtime (vlan: 108)"];
                   [VStr "10.1.8.5"; VStr "Used"; VStr "Server A"; VStr "host-a"];
                   [VStr "not-an-ip"];
                   [VStr "2001:db8::1"; VStr "Used"]]
                  empty_store ref_netbox_contract)).
Defined.

(** * Examples on the reference module and store *)

Section Examples.

Example split_header :
  PyStr.split " - "
    "10.1.8.0/24 - CTRL-W27-04-LANtime (vlan: 108 - CTRL-W27-04-LANtime)"
  = ["10.1.8.0/24"; "CTRL-W27-04-LANtime (vlan: 108"; "CTRL-W27-04-LANtime)"].
Proof. reflexivity. Qed.

Example split_without_separator :
  PyStr.split " - " "10.1.8.0/24" = ["10.1.8.0/24"].
Proof. reflexivity. Qed.

Example split_at_both_ends : PyStr.split " - " " - a - " = [""; "a"; ""].
Proof. reflexivity. Qed.

Example split_overlapping : PyStr.split " - " "a - - b" = ["a"; "- b"].
Proof. reflexivity. Qed.

Example strip_padded_title : PyStr.strip " IP Address " = "IP Address".
Proof. reflexivity. Qed.

Example reference_addresses :
  map RefIpaddress.ip_address
    ["10.1.8.5"; "10.1.8.256"; "10.01.8.5"; "1.2.3"; "10.1.8.0/24";
     "::1"; "2001:db8::1"; "1:2:3:4:5:6:7:8"; "1::2::3"; "not-an-ip"; ""]
  = [Some V4; None; None; None; None;
     Some V6; Some V6; Some V6; None; None; None].
Proof. reflexivity. Qed.

Example reference_networks :
  map RefIpaddress.ip_network
    ["10.1.8.0/24"; "10.1.8.1/24"; "10.1.8.1"; "10.1.8.0/33"; "10.1.8.0/";
     "0.0.0.0/0"; "garbage/x"; ""]
  = [true; false; true; false; false; true; false; false].
Proof. reflexivity. Qed.

Example sample_export_kinds :
  map (classify ref_ipaddress) sample_export
  = [Ok ColumnTitle;
     Ok (SubnetHeader "10.1.8.0/24" "CTRL-W27-04-LANtime (vlan: 108)");
     Ok (AddressData "10.1.8.5" (VStr "Used") (VStr "Server A")
           (VStr "host-a") (VStr "") (VStr "") (VStr "") (VStr "") (VStr ""));
     Ok Noise; Ok Noise; Ok Noise].
Proof. reflexivity. Qed.

Example sample_export_intents :
  parse ref_ipaddress sample_export
  = [CreateSubnet "10.1.8.0/24" "CTRL-W27-04-LANtime (vlan: 108)";
     CreateAddress "10.1.8.5" (VStr "host-a") (VStr "Server A")
       (VStr "") (VStr "") (VStr "") (VStr "") (VStr "")].
Proof. reflexivity. Qed.

Example sample_export_applied :
  let w := snd (process_data ref_ipaddress ref_netbox false sample_export
                  (init_importer empty_store)) in
  stats w = {| prefixes_created := 1; prefixes_skipped := 0;
               ips_created := 1; ips_skipped := 0; errors := 0 |}
  /\ calls w
     = [PrefixesGet "10.1.8.0/24";
        PrefixesCreate "10.1.8.0/24" "CTRL-W27-04-LANtime (vlan: 108)" "active";
        IpAddressesGet "10.1.8.5/32";
        IpAddressesCreate "10.1.8.5/32" (VStr "host-a") "Server A" "active"].
Proof. split; reflexivity. Qed.

Example sample_export_dry_run :
  let w := snd (process_data ref_ipaddress ref_netbox true sample_export
                  (init_importer empty_store)) in
  stats w = {| prefixes_created := 1; prefixes_skipped := 0;
               ips_created := 1; ips_skipped := 0; errors := 0 |}
  /\ calls w = [] /\ nb w = empty_store.
Proof. repeat split; reflexivity. Qed.

(** Every call failing with an exception other than [ValueError]: one error
    per intent, and the loop runs to its end. *)
Example sample_export_failing_client :
  let r := process_data ref_ipaddress (failing_netbox OtherException) false
             sample_export (init_importer 0) in
  fst r = Ok tt
  /\ stats (snd r) = {| prefixes_created := 0; prefixes_skipped := 0;
                        ips_created := 0; ips_skipped := 0; errors := 2 |}.
Proof. split; reflexivity. Qed.

End Examples.

(** * The rest of the script: accounting, call discipline, entry point *)

(** ** Definitions *)

(** The number of outcomes counted so far: the sum of the five counters. *)
Definition outcomes (st : Stats) : nat :=
  prefixes_created st + prefixes_skipped st + ips_created st
  + ips_skipped st + errors st.

(** Every [create] in the log comes right after a [get] of the same endpoint
    with the same key, and carries the status ["active"]; [pending] is the
    call just before. *)
Fixpoint guarded_from (pending : option Call) (l : list Call) : bool :=
  match l with
  | [] => true
  | c :: rest =>
      match c with
      | PrefixesGet _ | IpAddressesGet _ => guarded_from (Some c) rest
      | PrefixesCreate prefix _ status =>
          match pending with
          | Some (PrefixesGet looked_up) => String.eqb looked_up prefix
          | _ => false
          end
          && String.eqb status "active" && guarded_from None rest
      | IpAddressesCreate address _ _ status =>
          match pending with
          | Some (IpAddressesGet looked_up) => String.eqb looked_up address
          | _ => false
          end
          && String.eqb status "active" && guarded_from None rest
      end
  end.

Definition lookup_before_write (l : list Call) : bool := guarded_from None l.

(** The key of a call went through [ip_network], or is an address that went
    through [ip_address] with its full-length mask. *)
Definition validated_call (ipaddress : IpAddressModule) (c : Call) : Prop :=
  match c with
  | PrefixesGet prefix | PrefixesCreate prefix _ _ =>
      ip_network ipaddress prefix = true
  | IpAddressesGet address | IpAddressesCreate address _ _ _ =>
      exists ip v, ip_address ipaddress ip = Some v
                   /\ address = ip_with_mask ip v
  end.

(** An intent as [process_data] makes them: the network, or the address,
    went through its parser. *)
Definition validated_intent (ipaddress : IpAddressModule) (i : Intent) : Prop :=
  match i with
  | CreateSubnet cidr _ => ip_network ipaddress cidr = true
  | CreateAddress address _ _ _ _ _ _ _ =>
      exists v, ip_address ipaddress address = Some v
  end.

(** How many [prefixes.create], or [ip_addresses.create], calls of the log
    carry the key. *)
Definition prefix_creates (key : string) (l : list Call) : nat :=
  length (List.filter
            (fun c => match c with
                      | PrefixesCreate prefix _ _ => String.eqb prefix key
                      | _ => false
                      end) l).

Definition address_creates (key : string) (l : list Call) : nat :=
  length (List.filter
            (fun c => match c with
                      | IpAddressesCreate address _ _ _ => String.eqb address key
                      | _ => false
                      end) l).

(** ** Every intent is counted once *)

Section Accounting.

Context {S R : Type}.
Variable ipaddress : IpAddressModule.
Variable pynetbox : NetBox S R.
Variable DRY_RUN : bool.

Implicit Types (w : Importer S) (i : Intent).

(** One intent moves one counter by one: a subnet always, an address unless
    it is invalid or the client raised [ValueError]. *)
Lemma apply_intent_stats i w :
  let st := stats w in
  let st' := stats (snd (apply_intent ipaddress pynetbox DRY_RUN i w)) in
  match i with
  | CreateSubnet _ _ =>
      st' = incr_prefixes_created st \/ st' = incr_prefixes_skipped st
      \/ st' = incr_errors st
  | CreateAddress _ _ _ _ _ _ _ _ =>
      st' = st
      \/ (is_valid_address_intent ipaddress i = true
          /\ (st' = incr_ips_created st \/ st' = incr_ips_skipped st
              \/ st' = incr_errors st))
  end.
Proof.
  destruct i as [cidr description|address hostname description mac owner device port note];
    cbn [apply_intent is_valid_address_intent]; cbv zeta.
  - unfold bind. destruct DRY_RUN.
    + rewrite create_prefix_dry. cbn. auto.
    + destruct (prefixes_get pynetbox cidr (nb w)) as [[[r|]|e] s1] eqn:Hget.
      * rewrite (create_prefix_exists pynetbox _ description _ _ _ Hget).
        cbn. auto.
      * rewrite (create_prefix_new pynetbox _ description _ _ Hget). cbv zeta.
        destruct (prefixes_create _ _ _ _ _) as [[r|e] s2]; cbn; auto.
      * rewrite (create_prefix_get_raises pynetbox _ description _ _ _ Hget).
        cbn. auto.
  - destruct (ip_address ipaddress address) as [v|] eqn:Hv.
    + destruct DRY_RUN.
      * rewrite (create_ip_address_dry ipaddress pynetbox _ hostname
                   description mac owner device port note _ _ Hv).
        cbn. auto.
      * destruct (ip_addresses_get pynetbox (ip_with_mask address v) (nb w))
          as [[[r|]|e] s1] eqn:Hget.
        -- rewrite (create_ip_address_exists ipaddress pynetbox _ hostname
                      description mac owner device port note _ _ _ _ Hv Hget).
           cbn. auto.
        -- rewrite (create_ip_address_new ipaddress pynetbox _ hostname
                      description mac owner device port note _ _ _ Hv Hget).
           cbv zeta.
           destruct (ip_addresses_create _ _ _ _ _ _) as [[r|[]] s2]; cbn; auto.
        -- rewrite (create_ip_address_get_raises ipaddress pynetbox _ hostname
                      description mac owner device port note _ _ _ _ Hv Hget).
           destruct e; cbn; auto.
    + rewrite (create_ip_address_invalid ipaddress pynetbox _ _ hostname
                 description mac owner device port note _ Hv).
      cbn. auto.
Qed.

End Accounting.

Lemma counted_intents_bound (ipaddress : IpAddressModule) (intents : list Intent) :
  count_subnets intents + count_valid_addresses ipaddress intents
  <= length intents.
Proof.
  unfold count_subnets, count_valid_addresses.
  induction intents as [|i rest IH]; [reflexivity|].
  destruct i; cbn [List.filter is_subnet_intent is_valid_address_intent length].
  - lia.
  - destruct (ip_address ipaddress address); cbn [length]; lia.
Qed.

(** A row gives at most one intent. *)
Lemma parse_length (ipaddress : IpAddressModule) (df : DataFrame) :
  length (parse ipaddress df) <= length df.
Proof.
  induction df as [|row rest IH]; [reflexivity|].
  simpl. destruct (classify ipaddress row) as [k|e]; [|simpl; lia].
  destruct (intent_of k); simpl; lia.
Qed.

(** X1. In either mode and with any client, failing or not, a run never
    lowers a counter; every subnet intent is counted exactly once (created,
    skipped or error) and every valid address intent at most once, so the
    sum of the five counters grows by at least the number of subnet intents
    and at most the number of subnet and valid address intents; and after
    [process_data] on a fresh importer the sum is at most the number of
    rows. *)
Theorem run_counts_each_intent_once {S R : Type} (ipaddress : IpAddressModule)
    (pynetbox : NetBox S R) (DRY_RUN : bool) (intents : list Intent)
    (df : DataFrame) (w : Importer S) :
  (let st := stats w in
   let st' := stats (snd (reconcile ipaddress pynetbox DRY_RUN intents w)) in
   (prefixes_created st <= prefixes_created st'
    /\ prefixes_skipped st <= prefixes_skipped st'
    /\ ips_created st <= ips_created st'
    /\ ips_skipped st <= ips_skipped st'
    /\ errors st <= errors st')
   /\ outcomes st + count_subnets intents <= outcomes st'
   /\ outcomes st'
      <= outcomes st + count_subnets intents
         + count_valid_addresses ipaddress intents
   /\ prefixes_created st' + prefixes_skipped st'
      <= prefixes_created st + prefixes_skipped st + count_subnets intents
   /\ ips_created st' + ips_skipped st'
      <= ips_created st + ips_skipped st
         + count_valid_addresses ipaddress intents)
  /\ outcomes (stats (snd (process_data ipaddress pynetbox DRY_RUN df
                             (init_importer (nb w)))))
     <= length df.
Proof.
  assert (Hrun : forall l w0,
    let st := stats w0 in
    let st' := stats (snd (reconcile ipaddress pynetbox DRY_RUN l w0)) in
    (prefixes_created st <= prefixes_created st'
     /\ prefixes_skipped st <= prefixes_skipped st'
     /\ ips_created st <= ips_created st'
     /\ ips_skipped st <= ips_skipped st'
     /\ errors st <= errors st')
    /\ outcomes st + count_subnets l <= outcomes st'
    /\ outcomes st'
       <= outcomes st + count_subnets l + count_valid_addresses ipaddress l
    /\ prefixes_created st' + prefixes_skipped st'
       <= prefixes_created st + prefixes_skipped st + count_subnets l
    /\ ips_created st' + ips_skipped st'
       <= ips_created st + ips_skipped st + count_valid_addresses ipaddress l).
  { induction l as [|i rest IH]; intros w0; cbv zeta.
    - cbn. unfold outcomes. lia.
    - rewrite reconcile_cons.
      pose proof (apply_intent_stats ipaddress pynetbox DRY_RUN i w0) as Hi.
      cbv zeta in Hi.
      remember (snd (apply_intent ipaddress pynetbox DRY_RUN i w0)) as w1 eqn:Hw1.
      clear Hw1. specialize (IH w1). cbv zeta in IH.
      unfold count_subnets, count_valid_addresses, outcomes in *.
      destruct i as [cidr description|address hostname description mac owner device port note];
        cbn [List.filter is_subnet_intent is_valid_address_intent] in *.
      + destruct Hi as [Hi|[Hi|Hi]]; rewrite Hi in IH; cbn in IH;
          cbn [length]; lia.
      + destruct Hi as [Hi|[Hvalid [Hi|[Hi|Hi]]]].
        * rewrite Hi in IH.
          destruct (ip_address ipaddress address); cbn [length]; lia.
        * rewrite Hvalid. rewrite Hi in IH. cbn in IH. cbn [length]. lia.
        * rewrite Hvalid. rewrite Hi in IH. cbn in IH. cbn [length]. lia.
        * rewrite Hvalid. rewrite Hi in IH. cbn in IH. cbn [length]. lia. }
  split; [apply Hrun|].
  rewrite process_data_parse.
  destruct (Hrun (parse ipaddress df) (init_importer (nb w)))
    as (_ & _ & Hup & _).
  cbn in Hup.
  pose proof (counted_intents_bound ipaddress (parse ipaddress df)).
  pose proof (parse_length ipaddress df).
  unfold outcomes in *. cbn in Hup. lia.
Qed.

(** ** Every create comes after its lookup *)

Lemma guarded_from_any (pending : option Call) (l : list Call) :
  guarded_from None l = true -> guarded_from pending l = true.
Proof.
  destruct l as [|[prefix|prefix description status|address|address dns description status] rest];
    cbn [guarded_from]; try tauto; intros H; discriminate.
Qed.

Lemma guarded_from_app (pending : option Call) (l1 l2 : list Call) :
  guarded_from pending l1 = true -> guarded_from None l2 = true ->
  guarded_from pending (l1 ++ l2) = true.
Proof.
  revert pending. induction l1 as [|c l1 IH]; intros pending H1 H2.
  - now apply guarded_from_any.
  - simpl. destruct c; cbn [guarded_from] in H1 |- *;
      try (now apply IH);
      apply andb_true_iff in H1 as [H1 H1'];
      rewrite H1; cbn [andb]; now apply IH.
Qed.

Section CallDiscipline.

Context {S R : Type}.
Variable ipaddress : IpAddressModule.
Variable pynetbox : NetBox S R.
Variable DRY_RUN : bool.

Implicit Types (w : Importer S) (i : Intent).

(** The calls of one intent: none, a lookup, or a lookup and the create of
    the same key. *)
Lemma apply_intent_calls i w :
  exists appended,
    calls (snd (apply_intent ipaddress pynetbox DRY_RUN i w))
    = (calls w ++ appended)%list
    /\ lookup_before_write appended = true
    /\ length appended <= 2.
Proof.
  destruct i as [cidr description|address hostname description mac owner device port note];
    cbn [apply_intent].
  - unfold bind. destruct DRY_RUN.
    + rewrite create_prefix_dry. exists []. cbn. rewrite app_nil_r. auto.
    + destruct (prefixes_get pynetbox cidr (nb w)) as [[[r|]|e] s1] eqn:Hget.
      * rewrite (create_prefix_exists pynetbox _ description _ _ _ Hget).
        eexists. cbn. split; [reflexivity|]. split; [reflexivity | simpl; lia].
      * rewrite (create_prefix_new pynetbox _ description _ _ Hget). cbv zeta.
        destruct (prefixes_create _ _ _ _ _) as [[r|e] s2]; eexists; cbn;
          (split; [reflexivity|]); unfold lookup_before_write; cbn [guarded_from];
          rewrite String.eqb_refl;
          (split; [reflexivity | simpl; lia]).
      * rewrite (create_prefix_get_raises pynetbox _ description _ _ _ Hget).
        eexists. cbn. split; [reflexivity|]. split; [reflexivity | simpl; lia].
  - destruct (ip_address ipaddress address) as [v|] eqn:Hv.
    + destruct DRY_RUN.
      * rewrite (create_ip_address_dry ipaddress pynetbox _ hostname
                   description mac owner device port note _ _ Hv).
        exists []. cbn. rewrite app_nil_r. auto.
      * destruct (ip_addresses_get pynetbox (ip_with_mask address v) (nb w))
          as [[[r|]|e] s1] eqn:Hget.
        -- rewrite (create_ip_address_exists ipaddress pynetbox _ hostname
                      description mac owner device port note _ _ _ _ Hv Hget).
           eexists. cbn. split; [reflexivity|]. split; [reflexivity | simpl; lia].
        -- rewrite (create_ip_address_new ipaddress pynetbox _ hostname
                      description mac owner device port note _ _ _ Hv Hget).
           cbv zeta.
           destruct (ip_addresses_create _ _ _ _ _ _) as [[r|e] s2];
             eexists; cbn; (split; [reflexivity|]); unfold lookup_before_write; cbn [guarded_from];
          rewrite String.eqb_refl;
             (split; [reflexivity | simpl; lia]).
        -- rewrite (create_ip_address_get_raises ipaddress pynetbox _ hostname
                      description mac owner device port note _ _ _ _ Hv Hget).
           eexists. cbn. split; [reflexivity|]. split; [reflexivity | simpl; lia].
    + rewrite (create_ip_address_invalid ipaddress pynetbox _ _ hostname
                 description mac owner device port note _ Hv).
      exists []. cbn. rewrite app_nil_r. auto.
Qed.

Lemma reconcile_calls (intents : list Intent) w :
  exists appended,
    calls (snd (reconcile ipaddress pynetbox DRY_RUN intents w))
    = (calls w ++ appended)%list
    /\ lookup_before_write appended = true
    /\ length appended <= 2 * length intents.
Proof.
  revert w. induction intents as [|i rest IH]; intros w.
  - exists []. cbn. rewrite app_nil_r. auto.
  - rewrite reconcile_cons.
    destruct (apply_intent_calls i w) as (l1 & H1 & Hg1 & Hn1).
    destruct (IH (snd (apply_intent ipaddress pynetbox DRY_RUN i w)))
      as (l2 & H2 & Hg2 & Hn2).
    exists (l1 ++ l2)%list. rewrite H2, H1, <- app_assoc.
    split; [reflexivity|]. split.
    + now apply guarded_from_app.
    + rewrite length_app. cbn [length]. lia.
Qed.

End CallDiscipline.

(** X2. In either mode and with any client, failing or not, the calls a run
    adds to the log keep lookup-before-write: every [prefixes.create] comes
    right after the [prefixes.get] of the same prefix, every
    [ip_addresses.create] right after the [ip_addresses.get] of the same
    address, each with status ["active"]; and a run issues at most two calls
    per intent, [process_data] at most two per row. *)
Theorem creates_follow_their_lookup {S R : Type} (ipaddress : IpAddressModule)
    (pynetbox : NetBox S R) (DRY_RUN : bool) (intents : list Intent)
    (df : DataFrame) (w : Importer S) :
  (exists appended,
     calls (snd (reconcile ipaddress pynetbox DRY_RUN intents w))
     = (calls w ++ appended)%list
     /\ lookup_before_write appended = true
     /\ length appended <= 2 * length intents)
  /\ (exists appended,
        calls (snd (process_data ipaddress pynetbox DRY_RUN df w))
        = (calls w ++ appended)%list
        /\ lookup_before_write appended = true
        /\ length appended <= 2 * length df).
Proof.
  split; [apply reconcile_calls|].
  rewrite process_data_parse.
  destruct (reconcile_calls ipaddress pynetbox DRY_RUN (parse ipaddress df) w)
    as (l & Hl & Hg & Hn).
  exists l. repeat split; try assumption.
  pose proof (parse_length ipaddress df). lia.
Qed.

(** ** Only parsed keys reach the client *)

Section ValidatedKeys.

Context {S R : Type}.
Variable ipaddress : IpAddressModule.
Variable pynetbox : NetBox S R.
Variable DRY_RUN : bool.

Implicit Types (w : Importer S) (i : Intent).

(** [parse_subnet_header] returns a pair only with a network that
    [ip_network] accepted. *)
Lemma parse_subnet_header_network header subnet description :
  parse_subnet_header ipaddress header = Some (subnet, description) ->
  ip_network ipaddress subnet = true.
Proof.
  unfold parse_subnet_header. destruct header as [text| | |]; try discriminate.
  destruct (negb (PyStr.contains "/" text)); [discriminate|].
  destruct (Nat.ltb _ 2); [discriminate|].
  destruct (ip_network ipaddress _) eqn:Hnet; [|discriminate].
  intros H. injection H as <- _. exact Hnet.
Qed.

(** The intent of a row went through the parser of its kind. *)
Lemma classify_validated (row : list PyVal) (k : RowKind) i :
  classify ipaddress row = Ok k -> intent_of k = Some i ->
  validated_intent ipaddress i.
Proof.
  destruct row as [|first_col rest]; [discriminate|].
  unfold classify. intros Hk Hi. injection Hk as <-.
  assert (Hrest :
    intent_of
      (if isinstance_str first_col
          && String.eqb (PyStr.lower (py_str first_col)) "ip address"
       then ColumnTitle
       else if pd_notna first_col then
         match ip_address ipaddress (PyStr.strip (py_str first_col)) with
         | Some _ =>
             AddressData (PyStr.strip (py_str first_col))
               (cell (first_col :: rest) 1) (cell (first_col :: rest) 2)
               (cell (first_col :: rest) 3) (cell (first_col :: rest) 4)
               (cell (first_col :: rest) 5) (cell (first_col :: rest) 6)
               (cell (first_col :: rest) 7) (cell (first_col :: rest) 8)
         | None => Noise
         end
       else Noise) = Some i -> validated_intent ipaddress i).
  { destruct (isinstance_str first_col && _); [discriminate|].
    destruct (pd_notna first_col); [|discriminate].
    destruct (ip_address ipaddress (PyStr.strip (py_str first_col)))
      as [v|] eqn:Hv; [|discriminate].
    cbn [intent_of]. intros H. injection H as <-. cbn. eauto. }
  destruct (parse_subnet_header ipaddress first_col)
    as [[subnet description]|] eqn:Hparse; [|now apply Hrest].
  destruct (PyStr.nonempty subnet); [|now apply Hrest].
  cbn [intent_of] in Hi. injection Hi as <-. cbn.
  exact (parse_subnet_header_network _ _ _ Hparse).
Qed.

Lemma parse_validated (df : DataFrame) :
  Forall (validated_intent ipaddress) (parse ipaddress df).
Proof.
  induction df as [|row rest IH]; [constructor|].
  cbn [parse]. destruct (classify ipaddress row) as [k|e] eqn:Hk; [|constructor].
  destruct (intent_of k) as [i|] eqn:Hi; [|exact IH].
  constructor; [|exact IH]. exact (classify_validated row k i Hk Hi).
Qed.

(** The calls of one intent carry the key of the intent. *)
Lemma apply_intent_call_shape i w :
  exists appended,
    calls (snd (apply_intent ipaddress pynetbox DRY_RUN i w))
    = (calls w ++ appended)%list
    /\ match i with
       | CreateSubnet cidr _ =>
           appended = [] \/ appended = [PrefixesGet cidr]
           \/ exists stored,
                appended = [PrefixesGet cidr;
                            PrefixesCreate cidr stored "active"]
       | CreateAddress address _ _ _ _ _ _ _ =>
           appended = []
           \/ exists v,
                ip_address ipaddress address = Some v
                /\ (appended = [IpAddressesGet (ip_with_mask address v)]
                    \/ exists dns_name stored,
                         appended
                         = [IpAddressesGet (ip_with_mask address v);
                            IpAddressesCreate (ip_with_mask address v)
                              dns_name stored "active"])
       end.
Proof.
  destruct i as [cidr description|address hostname description mac owner device port note];
    cbn [apply_intent].
  - unfold bind. destruct DRY_RUN.
    + rewrite create_prefix_dry. exists []. cbn. rewrite app_nil_r. auto.
    + destruct (prefixes_get pynetbox cidr (nb w)) as [[[r|]|e] s1] eqn:Hget.
      * rewrite (create_prefix_exists pynetbox _ description _ _ _ Hget).
        eexists. cbn. split; [reflexivity | auto].
      * rewrite (create_prefix_new pynetbox _ description _ _ Hget). cbv zeta.
        destruct (prefixes_create _ _ _ _ _) as [[r|e] s2]; eexists; cbn;
          (split; [reflexivity | eauto]).
      * rewrite (create_prefix_get_raises pynetbox _ description _ _ _ Hget).
        eexists. cbn. split; [reflexivity | auto].
  - destruct (ip_address ipaddress address) as [v|] eqn:Hv.
    + destruct DRY_RUN.
      * rewrite (create_ip_address_dry ipaddress pynetbox _ hostname
                   description mac owner device port note _ _ Hv).
        exists []. cbn. rewrite app_nil_r. auto.
      * destruct (ip_addresses_get pynetbox (ip_with_mask address v) (nb w))
          as [[[r|]|e] s1] eqn:Hget.
        -- rewrite (create_ip_address_exists ipaddress pynetbox _ hostname
                      description mac owner device port note _ _ _ _ Hv Hget).
           eexists. cbn. split; [reflexivity | eauto].
        -- rewrite (create_ip_address_new ipaddress pynetbox _ hostname
                      description mac owner device port note _ _ _ Hv Hget).
           cbv zeta.
           destruct (ip_addresses_create _ _ _ _ _ _) as [[r|e] s2];
             eexists; cbn; (split; [reflexivity | eauto 8]).
        -- rewrite (create_ip_address_get_raises ipaddress pynetbox _ hostname
                      description mac owner device port note _ _ _ _ Hv Hget).
           eexists. cbn. split; [reflexivity | eauto].
    + rewrite (create_ip_address_invalid ipaddress pynetbox _ _ hostname
                 description mac owner device port note _ Hv).
      exists []. cbn. rewrite app_nil_r. auto.
Qed.

Lemma reconcile_validated_calls (intents : list Intent) w :
  Forall (validated_intent ipaddress) intents ->
  exists appended,
    calls (snd (reconcile ipaddress pynetbox DRY_RUN intents w))
    = (calls w ++ appended)%list
    /\ Forall (validated_call ipaddress) appended.
Proof.
  revert w. induction intents as [|i rest IH]; intros w Hall.
  - exists []. cbn. rewrite app_nil_r. auto.
  - rewrite reconcile_cons. inversion Hall as [|? ? Hi Hrest]; subst.
    destruct (apply_intent_call_shape i w) as (l1 & H1 & Hshape).
    destruct (IH (snd (apply_intent ipaddress pynetbox DRY_RUN i w)) Hrest)
      as (l2 & H2 & Hv2).
    exists (l1 ++ l2)%list. rewrite H2, H1, <- app_assoc.
    split; [reflexivity|]. apply Forall_app. split; [|exact Hv2].
    destruct i as [cidr description|address hostname description mac owner device port note];
      cbn [validated_intent] in Hi.
    + destruct Hshape as [->|[->|[stored ->]]];
        repeat constructor; exact Hi.
    + destruct Hshape as [->|(v & Hv & [->|(dns_name & stored & ->)])];
        repeat constructor; cbn; eauto.
Qed.

End ValidatedKeys.

(** X3. In either mode and with any client, every call [process_data]
    issues carries a key that went through the script's validation: the
    prefix of a [prefixes] call is a stripped first segment that [ip_network]
    accepted, the address of an [ip_addresses] call is a text that
    [ip_address] accepted followed by its full-length mask. *)
Theorem only_validated_keys_are_sent {S R : Type} (ipaddress : IpAddressModule)
    (pynetbox : NetBox S R) (DRY_RUN : bool) (df : DataFrame)
    (w : Importer S) :
  exists appended,
    calls (snd (process_data ipaddress pynetbox DRY_RUN df w))
    = (calls w ++ appended)%list
    /\ Forall (validated_call ipaddress) appended.
Proof.
  rewrite process_data_parse.
  apply reconcile_validated_calls, parse_validated.
Qed.

(** ** With a client that keeps the contract *)

Lemma prefix_creates_app (key : string) (l1 l2 : list Call) :
  prefix_creates key (l1 ++ l2) = prefix_creates key l1 + prefix_creates key l2.
Proof. unfold prefix_creates. now rewrite List.filter_app, length_app. Qed.

Lemma address_creates_app (key : string) (l1 l2 : list Call) :
  address_creates key (l1 ++ l2)
  = address_creates key l1 + address_creates key l2.
Proof. unfold address_creates. now rewrite List.filter_app, length_app. Qed.

Section UnderContract.

Context {S R : Type}.
Variable ipaddress : IpAddressModule.
Variable pynetbox : NetBox S R.
Hypothesis contract : LookupBeforeWrite pynetbox.

Implicit Types (w : Importer S) (i : Intent).

(** One intent in apply mode: what [get] finds is skipped with a lookup
    only, what it does not find is created, and no error is counted. *)
Lemma apply_intent_under_contract i w :
  let w' := snd (apply_intent ipaddress pynetbox false i w) in
  exists appended,
    calls w' = (calls w ++ appended)%list
    /\ match i with
       | CreateSubnet cidr _ =>
           (prefix_found pynetbox cidr (nb w)
            /\ appended = [PrefixesGet cidr]
            /\ stats w' = incr_prefixes_skipped (stats w))
           \/ (~ prefix_found pynetbox cidr (nb w)
               /\ (exists stored,
                     appended = [PrefixesGet cidr;
                                 PrefixesCreate cidr stored "active"])
               /\ stats w' = incr_prefixes_created (stats w))
       | CreateAddress address _ _ _ _ _ _ _ =>
           match ip_address ipaddress address with
           | None => appended = [] /\ stats w' = stats w
           | Some v =>
               let key := ip_with_mask address v in
               (address_found pynetbox key (nb w)
                /\ appended = [IpAddressesGet key]
                /\ stats w' = incr_ips_skipped (stats w))
               \/ (~ address_found pynetbox key (nb w)
                   /\ (exists dns_name stored,
                         appended = [IpAddressesGet key;
                                     IpAddressesCreate key dns_name stored
                                       "active"])
                   /\ stats w' = incr_ips_created (stats w))
           end
       end.
Proof.
  destruct i as [cidr description|address hostname description mac owner device port note];
    cbn [apply_intent]; cbv zeta.
  - unfold bind.
    destruct (prefixes_get_reads _ contract cidr (nb w)) as [[r|] Hget].
    + rewrite (create_prefix_exists pynetbox _ description _ _ _ Hget).
      eexists. cbn. split; [reflexivity|]. left.
      split; [|auto]. exists r. now rewrite Hget.
    + rewrite (create_prefix_new pynetbox _ description _ _ Hget). cbv zeta.
      destruct (prefixes_create_stores _ contract cidr
                  (if PyStr.nonempty description
                   then PyStr.slice_to 200 description else "")
                  "active" (nb w)) as (r & s' & Hcreate & _).
      rewrite Hcreate. eexists. cbn. split; [reflexivity|]. right.
      split; [|eauto]. intros [r' Hr']. rewrite Hget in Hr'. discriminate.
  - destruct (ip_address ipaddress address) as [v|] eqn:Hv.
    + destruct (ip_addresses_get_reads _ contract (ip_with_mask address v) (nb w))
        as [[r|] Hget].
      * rewrite (create_ip_address_exists ipaddress pynetbox _ hostname
                   description mac owner device port note _ _ _ _ Hv Hget).
        eexists. cbn. split; [reflexivity|]. left.
        split; [|auto]. exists r. now rewrite Hget.
      * rewrite (create_ip_address_new ipaddress pynetbox _ hostname
                   description mac owner device port note _ _ _ Hv Hget).
        cbv zeta.
        destruct (ip_addresses_create_stores _ contract
                    (ip_with_mask address v)
                    (if pd_notna hostname then hostname else VStr "")
                    (if PyStr.nonempty (full_description description note)
                     then PyStr.slice_to 200 (full_description description note)
                     else "")
                    "active" (nb w)) as (r & s' & Hcreate & _).
        rewrite Hcreate. eexists. cbn. split; [reflexivity|]. right.
        split; [|eauto]. intros [r' Hr']. rewrite Hget in Hr'. discriminate.
    + rewrite (create_ip_address_invalid ipaddress pynetbox _ _ hostname
                 description mac owner device port note _ Hv).
      exists []. cbn. rewrite app_nil_r. auto.
Qed.

(** In apply mode every subnet intent is created or skipped, every valid
    address intent is created or skipped, and no error is counted. *)
Lemma reconcile_under_contract_stats (intents : list Intent) w :
  let st := stats w in
  let st' := stats (snd (reconcile ipaddress pynetbox false intents w)) in
  prefixes_created st' + prefixes_skipped st'
  = prefixes_created st + prefixes_skipped st + count_subnets intents
  /\ ips_created st' + ips_skipped st'
     = ips_created st + ips_skipped st
       + count_valid_addresses ipaddress intents
  /\ errors st' = errors st.
Proof.
  revert w. induction intents as [|i rest IH]; intros w; cbv zeta.
  - cbn. lia.
  - rewrite reconcile_cons.
    destruct (apply_intent_under_contract i w) as (l & _ & Hi).
    remember (snd (apply_intent ipaddress pynetbox false i w)) as w1 eqn:Hw1.
    clear Hw1. specialize (IH w1). cbv zeta in IH.
    unfold count_subnets, count_valid_addresses in *.
    destruct i as [cidr description|address hostname description mac owner device port note];
      cbn [List.filter is_subnet_intent is_valid_address_intent] in *.
    + destruct Hi as [(_ & _ & Hst)|(_ & _ & Hst)]; rewrite Hst in IH;
        cbn in IH; cbn [length]; lia.
    + destruct (ip_address ipaddress address) as [v|].
      * destruct Hi as [(_ & _ & Hst)|(_ & _ & Hst)]; rewrite Hst in IH;
          cbn in IH; cbn [length]; lia.
      * destruct Hi as [_ Hst]. rewrite Hst in IH. lia.
Qed.

(** In apply mode a key is created at most once in a run, and not at all
    when [get] found it before the run. *)
Lemma reconcile_creates_once (intents : list Intent) w :
  exists appended,
    calls (snd (reconcile ipaddress pynetbox false intents w))
    = (calls w ++ appended)%list
    /\ forall key,
         prefix_creates key appended <= 1
         /\ address_creates key appended <= 1
         /\ (prefix_found pynetbox key (nb w) ->
             prefix_creates key appended = 0)
         /\ (address_found pynetbox key (nb w) ->
             address_creates key appended = 0).
Proof.
  revert w. induction intents as [|i rest IH]; intros w.
  - exists []. cbn. rewrite app_nil_r. split; [reflexivity|].
    intros key. cbn. repeat split; lia.
  - rewrite reconcile_cons.
    destruct (apply_intent_under_contract i w) as (l1 & H1 & Hi).
    destruct (apply_intent_stores ipaddress pynetbox contract i w)
      as (Hstored & Hkeep_p & Hkeep_a).
    destruct (IH (snd (apply_intent ipaddress pynetbox false i w)))
      as (l2 & H2 & Hrest).
    exists (l1 ++ l2)%list. rewrite H2, H1, <- app_assoc.
    split; [reflexivity|]. intros key.
    rewrite prefix_creates_app, address_creates_app.
    destruct (Hrest key) as (Hp1 & Ha1 & Hp0 & Ha0).
    destruct i as [cidr description|address hostname description mac owner device port note];
      cbn [intent_stored] in Hstored.
    + destruct Hi as [(Hfound & -> & _)|(Hnew & (stored & ->) & _)].
      * cbn. repeat split; auto.
      * unfold prefix_creates at 1 3. unfold address_creates at 1 3.
        cbn [List.filter length].
        destruct (String.eqb_spec cidr key) as [->|Hne]; cbn [length].
        -- rewrite (Hp0 Hstored). repeat split; auto. tauto.
        -- repeat split; auto.
    + destruct (ip_address ipaddress address) as [v|] eqn:Hv.
      * destruct Hi as [(Hfound & -> & _)|(Hnew & (dns_name & stored & ->) & _)].
        -- cbn. repeat split; auto.
        -- unfold prefix_creates at 1 3. unfold address_creates at 1 3.
           cbn [List.filter length].
           destruct (String.eqb_spec (ip_with_mask address v) key) as [<-|Hne];
             cbn [length].
           ++ rewrite (Ha0 (Hstored v eq_refl)). repeat split; auto. tauto.
           ++ repeat split; auto.
      * destruct Hi as [-> _]. cbn. repeat split; auto.
Qed.

End UnderContract.

(** X4. With a client that keeps the lookup-before-write contract, a run in
    apply mode never creates a record twice: over any intents, or any data
    frame, with repeated subnets or addresses or not, the calls of the run
    hold at most one [prefixes.create] per prefix and one
    [ip_addresses.create] per address, and none for a key that [get] found
    before the run. *)
Theorem no_key_is_created_twice {S R : Type} (ipaddress : IpAddressModule)
    (pynetbox : NetBox S R) (intents : list Intent) (df : DataFrame)
    (w : Importer S) :
  LookupBeforeWrite pynetbox ->
  (exists appended,
     calls (snd (reconcile ipaddress pynetbox false intents w))
     = (calls w ++ appended)%list
     /\ forall key,
          prefix_creates key appended <= 1
          /\ address_creates key appended <= 1
          /\ (prefix_found pynetbox key (nb w) ->
              prefix_creates key appended = 0)
          /\ (address_found pynetbox key (nb w) ->
              address_creates key appended = 0))
  /\ (exists appended,
        calls (snd (process_data ipaddress pynetbox false df w))
        = (calls w ++ appended)%list
        /\ forall key,
             prefix_creates key appended <= 1
             /\ address_creates key appended <= 1
             /\ (prefix_found pynetbox key (nb w) ->
                 prefix_creates key appended = 0)
             /\ (address_found pynetbox key (nb w) ->
                 address_creates key appended = 0)).
Proof.
  intros contract. split.
  - now apply reconcile_creates_once.
  - rewrite process_data_parse. now apply reconcile_creates_once.
Qed.

(** The same prefix and the same address on two rows each, against the
    empty reference store. *)
Lemma no_key_is_created_twice_witness :
  exists appended,
    calls (snd (process_data ref_ipaddress ref_netbox false
                  [[VStr "10.1.8.0/24 - first"]; [VStr "10.1.8.5"];
                   [VStr "10.1.8.0/24 - again"]; [VStr "10.1.8.5"]]
                  (init_importer empty_store)))
    = ([] ++ appended)%list
    /\ forall key,
         prefix_creates key appended <= 1
         /\ address_creates key appended <= 1
         /\ (prefix_found ref_netbox key empty_store ->
             prefix_creates key appended = 0)
         /\ (address_found ref_netbox key empty_store ->
             address_creates key appended = 0).
Proof.
  exact (proj2 (no_key_is_created_twice ref_ipaddress ref_netbox []
                  [[VStr "10.1.8.0/24 - first"]; [VStr "10.1.8.5"];
                   [VStr "10.1.8.0/24 - again"]; [VStr "10.1.8.5"]]
                  (init_importer empty_store) ref_netbox_contract)).
Defined.

(** X5. With a client that keeps the lookup-before-write contract, the dry
    run predicts the apply run: from a fresh importer over the same client
    state, what the dry run counts as created is what the apply run counts
    as created or skipped, for prefixes and for addresses, and neither run
    counts an error. *)
Theorem dry_run_predicts_apply {S R : Type} (ipaddress : IpAddressModule)
    (pynetbox : NetBox S R) (intents : list Intent) (df : DataFrame) (s : S) :
  LookupBeforeWrite pynetbox ->
  (let applied :=
     stats (snd (reconcile ipaddress pynetbox false intents (init_importer s))) in
   let dry :=
     stats (snd (reconcile ipaddress pynetbox true intents (init_importer s))) in
   prefixes_created applied + prefixes_skipped applied = prefixes_created dry
   /\ ips_created applied + ips_skipped applied = ips_created dry
   /\ errors applied = 0 /\ errors dry = 0)
  /\ (let applied :=
        stats (snd (process_data ipaddress pynetbox false df (init_importer s))) in
      let dry :=
        stats (snd (process_data ipaddress pynetbox true df (init_importer s))) in
      prefixes_created applied + prefixes_skipped applied = prefixes_created dry
      /\ ips_created applied + ips_skipped applied = ips_created dry
      /\ errors applied = 0 /\ errors dry = 0).
Proof.
  intros contract.
  assert (Hrun : forall l,
    let applied :=
      stats (snd (reconcile ipaddress pynetbox false l (init_importer s))) in
    let dry :=
      stats (snd (reconcile ipaddress pynetbox true l (init_importer s))) in
    prefixes_created applied + prefixes_skipped applied = prefixes_created dry
    /\ ips_created applied + ips_skipped applied = ips_created dry
    /\ errors applied = 0 /\ errors dry = 0).
  { intros l applied dry.
    destruct (reconcile_under_contract_stats ipaddress pynetbox contract l
                (init_importer s)) as (Hp & Hi & He).
    destruct (reconcile_dry ipaddress pynetbox l (init_importer s))
      as (_ & _ & Hdp & _ & Hdi & _ & Hde).
    fold applied in Hp, Hi, He. fold dry in Hdp, Hdi, Hde.
    cbn in Hp, Hi, He, Hdp, Hdi, Hde. lia. }
  split; [apply Hrun|].
  cbv zeta. rewrite !process_data_parse. apply Hrun.
Qed.

(** A repeated prefix: the dry run counts two creations, the apply run one
    creation and one skip. *)
Lemma dry_run_predicts_apply_witness :
  let df := [[VStr "10.1.8.0/24 - first"]; [VStr "10.1.8.5"];
             [VStr "10.1.8.0/24 - again"]] in
  let applied :=
    stats (snd (process_data ref_ipaddress ref_netbox false df
                  (init_importer empty_store))) in
  let dry :=
    stats (snd (process_data ref_ipaddress ref_netbox true df
                  (init_importer empty_store))) in
  prefixes_created applied + prefixes_skipped applied = prefixes_created dry
  /\ ips_created applied + ips_skipped applied = ips_created dry
  /\ errors applied = 0 /\ errors dry = 0.
Proof.
  exact (proj2 (dry_run_predicts_apply ref_ipaddress ref_netbox []
                  [[VStr "10.1.8.0/24 - first"]; [VStr "10.1.8.5"];
                   [VStr "10.1.8.0/24 - again"]]
                  empty_store ref_netbox_contract)).
Defined.

Example repeated_prefix_counts :
  let df := [[VStr "10.1.8.0/24 - first"]; [VStr "10.1.8.5"];
             [VStr "10.1.8.0/24 - again"]] in
  stats (snd (process_data ref_ipaddress ref_netbox false df
                (init_importer empty_store)))
  = {| prefixes_created := 1; prefixes_skipped := 1;
       ips_created := 1; ips_skipped := 0; errors := 0 |}
  /\ stats (snd (process_data ref_ipaddress ref_netbox true df
                   (init_importer empty_store)))
     = {| prefixes_created := 2; prefixes_skipped := 0;
          ips_created := 1; ips_skipped := 0; errors := 0 |}.
Proof. split; reflexivity. Qed.

(** ** Where the loop stops, and how it composes *)

Section LoopShape.

Context {S R : Type}.
Variable ipaddress : IpAddressModule.
Variable pynetbox : NetBox S R.
Variable DRY_RUN : bool.

Implicit Types (w : Importer S) (vars : LoopVars).

(** The loop body returns, or raises [IndexError] on a row without cells
    and leaves the importer as it is. *)
Lemma process_row_outcome (row : list PyVal) vars w :
  (exists vars' w',
     process_row ipaddress pynetbox DRY_RUN row vars w = (Ok vars', w'))
  \/ (row = []
      /\ process_row ipaddress pynetbox DRY_RUN row vars w
         = (Raise IndexError, w)).
Proof.
  destruct row as [|first_col rest]; [right; split; reflexivity|].
  left. rewrite process_row_classify.
  assert (Hk : exists k, classify ipaddress (first_col :: rest) = Ok k)
    by (unfold classify; eauto).
  destruct Hk as [k Hk]. rewrite Hk.
  pose proof (run_kind_intent ipaddress pynetbox DRY_RUN k vars w) as Hrun.
  destruct (intent_of k); [destruct Hrun as [vars' Hrun]|]; eauto.
Qed.

Lemma process_rows_stop (df1 df2 : DataFrame) vars w :
  process_rows ipaddress pynetbox DRY_RUN (df1 ++ [] :: df2)%list vars w
  = (Raise IndexError,
     snd (process_rows ipaddress pynetbox DRY_RUN df1 vars w)).
Proof.
  revert vars w. induction df1 as [|row rest IH]; intros vars w.
  - reflexivity.
  - simpl. unfold bind at 1 2.
    destruct (process_row_outcome row vars w)
      as [(vars' & w' & Hrow)|(_ & Hrow)]; rewrite Hrow.
    + apply IH.
    + reflexivity.
Qed.

Lemma process_rows_raises_only_index_error (df : DataFrame) vars w :
  (exists vars', fst (process_rows ipaddress pynetbox DRY_RUN df vars w) = Ok vars')
  \/ (fst (process_rows ipaddress pynetbox DRY_RUN df vars w) = Raise IndexError
      /\ In [] df).
Proof.
  revert vars w. induction df as [|row rest IH]; intros vars w.
  - left. now exists vars.
  - simpl. unfold bind at 1 2.
    destruct (process_row_outcome row vars w)
      as [(vars' & w' & Hrow)|(-> & Hrow)]; rewrite Hrow.
    + destruct (IH vars' w') as [Hok|[Hraise Hin]]; [now left|].
      right. split; [exact Hraise | now right].
    + right. split; [reflexivity | now left].
Qed.

Lemma process_rows_app (df1 df2 : DataFrame) vars w :
  (forall row, In row df1 -> row <> []) ->
  exists vars',
    process_rows ipaddress pynetbox DRY_RUN (df1 ++ df2)%list vars w
    = process_rows ipaddress pynetbox DRY_RUN df2 vars'
        (snd (process_rows ipaddress pynetbox DRY_RUN df1 vars w)).
Proof.
  revert vars w. induction df1 as [|row rest IH]; intros vars w Hrows.
  - now exists vars.
  - simpl. unfold bind at 1 2.
    destruct (process_row_outcome row vars w)
      as [(vars' & w' & Hrow)|(-> & _)].
    + rewrite Hrow. apply IH. intros r Hr. apply Hrows. now right.
    + now destruct (Hrows [] (or_introl eq_refl)).
Qed.

End LoopShape.

(** X6. [process_data] stops at the first row it cannot read.  On a data
    frame of scalar cells with a row without cells it raises [IndexError],
    the importer is as after the rows before it, and the rows after it are
    not processed.  On any rows, a row without cells stops the loop with
    [IndexError] and a row whose first cell holds a list of more than one
    element stops it with [ValueError], unless a row before it stopped the
    loop already; in each case the importer is as after the rows before it,
    so that no row after it is counted or sent to NetBox. *)
Theorem unreadable_row_stops_the_loop {S R : Type} (ipaddress : IpAddressModule)
    (pynetbox : NetBox S R) (DRY_RUN : bool) (df1 df2 : DataFrame)
    (rows1 rows2 : AnyFrame) (text : string) (rest : list PyVal)
    (w : Importer S) :
  let before := process_data_any ipaddress pynetbox DRY_RUN rows1 w in
  let stop (e : PyExc) : Result unit * Importer S :=
    (match fst before with Ok _ => Raise e | Raise e' => Raise e' end,
     snd before) in
  process_data ipaddress pynetbox DRY_RUN (df1 ++ [] :: df2)%list w
  = (Raise IndexError, snd (process_data ipaddress pynetbox DRY_RUN df1 w))
  /\ process_data_any ipaddress pynetbox DRY_RUN
       (rows1 ++ ScalarRow [] :: rows2)%list w
     = stop IndexError
  /\ process_data_any ipaddress pynetbox DRY_RUN
       (rows1 ++ ArrayFirst text None rest :: rows2)%list w
     = stop ValueError.
Proof.
  cbv zeta. split; [|split].
  - unfold process_data, bind. rewrite process_rows_stop.
    now destruct (process_rows _ _ _ df1 _ _) as [[vars'|e] w'].
  - apply process_data_any_stop. reflexivity.
  - apply process_data_any_stop. intros vars0 w0.
    apply process_row_any_ambiguous.
Qed.

Example rows_after_a_list_are_not_processed :
  let w :=
    snd (process_data_any ref_ipaddress ref_netbox false
           [ScalarRow [VStr "10.1.8.0/24 - LAN"];
            ArrayFirst "['10.1.8.5', '10.1.8.6']" None [];
            ScalarRow [VStr "10.1.8.7"]]
           (init_importer empty_store)) in
  calls w = [PrefixesGet "10.1.8.0/24";
             PrefixesCreate "10.1.8.0/24" "LAN" "active"]
  /\ stats w = {| prefixes_created := 1; prefixes_skipped := 0;
                  ips_created := 0; ips_skipped := 0; errors := 0 |}.
Proof. split; reflexivity. Qed.

(** X7. Importing an export in two parts, one after the other on the same
    importer, is importing it whole, as long as every row of the first part
    has a first cell: the loop carries nothing from row to row but the
    importer. *)
Theorem process_data_in_two_parts {S R : Type} (ipaddress : IpAddressModule)
    (pynetbox : NetBox S R) (DRY_RUN : bool) (df1 df2 : DataFrame)
    (w : Importer S) :
  (forall row, In row df1 -> row <> []) ->
  process_data ipaddress pynetbox DRY_RUN (df1 ++ df2)%list w
  = process_data ipaddress pynetbox DRY_RUN df2
      (snd (process_data ipaddress pynetbox DRY_RUN df1 w)).
Proof.
  intros Hrows.
  assert (Hsnd : forall df vars1 vars2 w0,
    snd (process_rows ipaddress pynetbox DRY_RUN df vars1 w0)
    = snd (process_rows ipaddress pynetbox DRY_RUN df vars2 w0))
    by (intros; now rewrite !process_rows_parse).
  assert (Hfst : forall df vars1 vars2 w0,
    match fst (process_rows ipaddress pynetbox DRY_RUN df vars1 w0),
          fst (process_rows ipaddress pynetbox DRY_RUN df vars2 w0) with
    | Ok _, Ok _ => True
    | Raise e1, Raise e2 => e1 = e2
    | _, _ => False
    end).
  { intros df vars1 vars2 w0.
    destruct (process_rows_raises_only_index_error ipaddress pynetbox DRY_RUN
                df vars1 w0) as [[v1 H1]|[H1 Hin]];
      destruct (process_rows_raises_only_index_error ipaddress pynetbox DRY_RUN
                  df vars2 w0) as [[v2 H2]|[H2 Hin']];
      rewrite H1, H2; try exact I; try reflexivity.
    - clear -Hin' H1. exfalso.
      apply in_split in Hin' as (l1 & l2 & ->).
      rewrite process_rows_stop in H1. discriminate.
    - clear -Hin H2. exfalso.
      apply in_split in Hin as (l1 & l2 & ->).
      rewrite process_rows_stop in H2. discriminate. }
  unfold process_data, bind.
  destruct (process_rows_app ipaddress pynetbox DRY_RUN df1 df2
              {| current_subnet := None; current_description := None |} w Hrows)
    as [vars' Happ].
  rewrite Happ.
  set (w1 := snd (process_rows ipaddress pynetbox DRY_RUN df1
                    {| current_subnet := None; current_description := None |} w)).
  assert (Hw1 : (let (r, w') :=
                   process_rows ipaddress pynetbox DRY_RUN df1
                     {| current_subnet := None; current_description := None |} w in
                 match r with
                 | Ok a => ret tt w'
                 | Raise e => (Raise e, w')
                 end).2 = w1).
  { unfold w1. now destruct (process_rows _ _ _ df1 _ _) as [[v|e] w']. }
  rewrite Hw1.
  specialize (Hsnd df2 vars'
                {| current_subnet := None; current_description := None |} w1).
  specialize (Hfst df2 vars'
                {| current_subnet := None; current_description := None |} w1).
  destruct (process_rows _ _ _ df2 vars' w1) as [[v|e] wa];
    destruct (process_rows _ _ _ df2 _ w1) as [[v'|e'] wb];
    cbn in Hsnd, Hfst; subst; try reflexivity; contradiction.
Qed.

(** A header row, then its address rows. *)
Lemma process_data_in_two_parts_witness :
  process_data ref_ipaddress ref_netbox false
    ([[VStr "10.1.8.0/24 - lab"]] ++ [[VStr "10.1.8.5"]; [VStr "10.1.8.6"]])%list
    (init_importer empty_store)
  = process_data ref_ipaddress ref_netbox false
      [[VStr "10.1.8.5"]; [VStr "10.1.8.6"]]
      (snd (process_data ref_ipaddress ref_netbox false
              [[VStr "10.1.8.0/24 - lab"]] (init_importer empty_store))).
Proof.
  apply (process_data_in_two_parts ref_ipaddress ref_netbox false
           [[VStr "10.1.8.0/24 - lab"]] [[VStr "10.1.8.5"]; [VStr "10.1.8.6"]]).
  intros row [<-|[]]. discriminate.
Defined.

(** ** What a failing client call costs *)

(** X8. In apply mode a call of the client that raises is caught inside the
    method, which returns: [create_prefix] returns [None] and adds one to
    [errors], whatever the exception, for a failing [prefixes.get] and for a
    failing [prefixes.create]; [create_ip_address] adds one to [errors] for a
    failing [ip_addresses.get] or [ip_addresses.create] unless the exception
    is a [ValueError], which it takes for an invalid address and drops.  No
    other counter changes, and the failed call stays in the log. *)
Theorem client_failures_are_caught {S R : Type} (ipaddress : IpAddressModule)
    (pynetbox : NetBox S R) (subnet description : string) (ip : string)
    (hostname cell_description mac owner device port note : PyVal)
    (w : Importer S) (v : IPVersion) (e : PyExc) (s1 s2 : S) :
  let counted st := match e with ValueError => st | _ => incr_errors st end in
  let stored :=
    if PyStr.nonempty description then PyStr.slice_to 200 description else "" in
  let key := ip_with_mask ip v in
  let dns_name := if pd_notna hostname then hostname else VStr "" in
  let text := full_description cell_description note in
  let sent := if PyStr.nonempty text then PyStr.slice_to 200 text else "" in
  (prefixes_get pynetbox subnet (nb w) = (Raise e, s1) ->
   create_prefix pynetbox false subnet description w
   = (Ok RetNone,
      {| nb := s1; stats := incr_errors (stats w);
         calls := calls w ++ [PrefixesGet subnet] |}))
  /\ (prefixes_get pynetbox subnet (nb w) = (Ok None, s1) ->
      prefixes_create pynetbox subnet stored "active" s1 = (Raise e, s2) ->
      create_prefix pynetbox false subnet description w
      = (Ok RetNone,
         {| nb := s2; stats := incr_errors (stats w);
            calls := calls w ++ [PrefixesGet subnet;
                                 PrefixesCreate subnet stored "active"] |}))
  /\ (ip_address ipaddress ip = Some v ->
      ip_addresses_get pynetbox key (nb w) = (Raise e, s1) ->
      create_ip_address ipaddress pynetbox false ip hostname cell_description
        mac owner device port note w
      = (Ok tt,
         {| nb := s1; stats := counted (stats w);
            calls := calls w ++ [IpAddressesGet key] |}))
  /\ (ip_address ipaddress ip = Some v ->
      ip_addresses_get pynetbox key (nb w) = (Ok None, s1) ->
      ip_addresses_create pynetbox key dns_name sent "active" s1
      = (Raise e, s2) ->
      create_ip_address ipaddress pynetbox false ip hostname cell_description
        mac owner device port note w
      = (Ok tt,
         {| nb := s2; stats := counted (stats w);
            calls := calls w ++ [IpAddressesGet key;
                                 IpAddressesCreate key dns_name sent "active"] |})).
Proof.
  cbv zeta. repeat split.
  - intros Hget.
    exact (create_prefix_get_raises pynetbox _ description _ _ _ Hget).
  - intros Hget Hcreate.
    rewrite (create_prefix_new pynetbox _ description _ _ Hget). cbv zeta.
    now rewrite Hcreate.
  - intros Hv Hget.
    rewrite (create_ip_address_get_raises ipaddress pynetbox _ hostname
               cell_description mac owner device port note _ _ _ _ Hv Hget).
    now destruct e.
  - intros Hv Hget Hcreate.
    rewrite (create_ip_address_new ipaddress pynetbox _ hostname
               cell_description mac owner device port note _ _ _ Hv Hget).
    cbv zeta. rewrite Hcreate. now destruct e.
Qed.

(** A client whose calls raise an exception other than [ValueError]: one
    error for the prefix, one for the address. *)
Lemma client_failures_are_caught_witness :
  create_prefix (failing_netbox OtherException) false "10.1.8.0/24" "lab"
    (init_importer 0)
  = (Ok RetNone,
     {| nb := 1; stats := incr_errors init_stats;
        calls := [PrefixesGet "10.1.8.0/24"] |})
  /\ create_ip_address ref_ipaddress (failing_netbox OtherException) false
       "10.1.8.5" VNaN VNaN VNaN VNaN VNaN VNaN VNaN (init_importer 0)
     = (Ok tt,
        {| nb := 1; stats := incr_errors init_stats;
           calls := [IpAddressesGet "10.1.8.5/32"] |}).
Proof.
  pose proof (client_failures_are_caught ref_ipaddress
                (failing_netbox OtherException) "10.1.8.0/24" "lab" "10.1.8.5"
                VNaN VNaN VNaN VNaN VNaN VNaN VNaN (init_importer 0) V4
                OtherException 1 1) as (Hprefix & _ & Haddress & _).
  split.
  - exact (Hprefix eq_refl).
  - exact (Haddress eq_refl eq_refl).
Defined.

(** ** The entry point *)

(** What [main] meets outside the importer: [pynetbox.api(...)] followed by
    [nb.status()], which returns or raises and may change the client state;
    [pd.read_excel(EXCEL_FILE, engine='xlrd')], which returns the data frame
    or raises; [input("Continue? (yes/no): ")], which returns the line the
    operator types or raises ([EOFError] on a closed input, here one of the
    other exceptions).  What the script prints is left out. *)
Record Environment (S : Type) : Type := {
  api_status : S -> Result unit * S;
  read_excel : Result DataFrame;
  input_response : Result string
}.
Arguments api_status {S} _ _.
Arguments read_excel {S} _.
Arguments input_response {S} _.

(** How the script ends: [sys.exit(code)], a return from [main], or an
    exception that nothing catches. *)
Inductive Outcome : Type :=
| Exit (code : nat)
| Returned
| Uncaught (e : PyExc).

Section Script.

Context {S R : Type}.
Variable ipaddress : IpAddressModule.
Variable pynetbox : NetBox S R.
Variable DRY_RUN : bool.
Variable env : Environment S.

(** [connect_netbox()] *)
Definition connect_netbox : M bool :=
  try_except
    (bind (fun w : Importer S =>
             let (r, s') := api_status env (nb w) in
             (r, {| nb := s'; stats := stats w; calls := calls w |}))
          (fun _ : unit => ret true))
    (fun _ => Some (ret false)).

(** [read_phpipam_export()]: the data frame, or [None] from either handler. *)
Definition read_phpipam_export : option DataFrame :=
  match read_excel env with
  | Ok df => Some df
  | Raise _ => None
  end.

(** [main()], from the client state [s].  The call of [input] is in no
    [try]: what it raises leaves [main]. *)
Definition main (s : S) : Outcome * Importer S :=
  let importer := init_importer s in
  match connect_netbox importer with
  | (Ok true, importer) =>
      match read_phpipam_export with
      | None => (Exit 1, importer)
      | Some df =>
          let run :=
            match process_data ipaddress pynetbox DRY_RUN df importer with
            | (Ok _, importer') => (Returned, importer')
            | (Raise e, importer') => (Uncaught e, importer')
            end in
          if negb DRY_RUN then
            match input_response env with
            | Ok response =>
                if negb (String.eqb (PyStr.lower response) "yes")
                then (Exit 0, importer)
                else run
            | Raise e => (Uncaught e, importer)
            end
          else run
      end
  | (Ok false, importer) => (Exit 1, importer)
  | (Raise e, importer) => (Uncaught e, importer)
  end.

End Script.

(** X9. [main] is guarded.  It ends with [sys.exit(1)] exactly when the
    connection test or the reading of the file raises, and with
    [sys.exit(0)] exactly when both succeed, the mode is apply, the prompt
    is answered and the answer, lower-cased (not trimmed), is not ["yes"];
    in both cases nothing was counted and no call was issued to the [ipam]
    endpoints.  A call is issued to them only after a successful connection
    test and reading, in apply mode, on the answer yes.  The prompt itself is
    not guarded: in apply mode, after the connection and the reading, what
    [input] raises leaves [main], with nothing counted and no call issued.
    An exception leaves [main] only so, or out of [process_data] on the data
    frame that was read, from the importer as the connection test left
    it. *)
Theorem main_is_guarded {S R : Type} (ipaddress : IpAddressModule)
    (pynetbox : NetBox S R) (DRY_RUN : bool) (env : Environment S) (s : S) :
  let r := main ipaddress pynetbox DRY_RUN env s in
  let connected := exists s', api_status env s = (Ok tt, s') in
  let readable := exists df, read_excel env = Ok df in
  let answered (yes : bool) :=
    exists response,
      input_response env = Ok response
      /\ String.eqb (PyStr.lower response) "yes" = yes in
  (fst r = Exit 1 <-> ~ (connected /\ readable))
  /\ (fst r = Exit 0 <->
      connected /\ readable /\ DRY_RUN = false /\ answered false)
  /\ (forall code, fst r = Exit code ->
      calls (snd r) = [] /\ stats (snd r) = init_stats)
  /\ (calls (snd r) <> [] ->
      connected /\ readable /\ DRY_RUN = false /\ answered true)
  /\ (forall e, connected -> readable -> DRY_RUN = false ->
      input_response env = Raise e ->
      fst r = Uncaught e /\ calls (snd r) = [] /\ stats (snd r) = init_stats)
  /\ (forall e, fst r = Uncaught e ->
      exists s' df,
        api_status env s = (Ok tt, s') /\ read_excel env = Ok df
        /\ ((DRY_RUN = false /\ input_response env = Raise e)
            \/ fst (process_data ipaddress pynetbox DRY_RUN df
                      (init_importer s')) = Raise e)).
Proof.
  cbv zeta. unfold main, connect_netbox, read_phpipam_export, try_except, bind.
  cbn [init_importer nb stats calls].
  destruct (api_status env s) as [[[]|e0] s'] eqn:Hstatus; cbn [ret].
  - destruct (read_excel env) as [df|e1] eqn:Hread.
    + assert (Hconn : exists s'', (Ok tt, s') = (Ok tt, s'')) by eauto.
      assert (Hreadable : exists df', Ok df = Ok df') by eauto.
      set (w := {| nb := s'; stats := init_stats; calls := [] |}).
      assert (Hrun :
        let run :=
          match process_data ipaddress pynetbox DRY_RUN df w with
          | (Ok _, importer') => (Returned, importer')
          | (Raise e, importer') => (Uncaught e, importer')
          end in
        (forall code, fst run <> Exit code)
        /\ (forall e, fst run = Uncaught e ->
            fst (process_data ipaddress pynetbox DRY_RUN df w) = Raise e)
        /\ (DRY_RUN = true -> calls (snd run) = [])).
      { cbv zeta. split; [|split].
        - intros code.
          destruct (process_data _ _ _ _ _) as [[u|e] w']; discriminate.
        - intros e He.
          destruct (process_data _ _ _ _ _) as [[u|e'] w'];
            cbn in *; congruence.
        - intros ->.
          assert (Hcalls : calls (snd (process_data ipaddress pynetbox true df w))
                           = [])
            by (rewrite process_data_parse;
                apply (reconcile_dry ipaddress pynetbox (parse ipaddress df) w)).
          now destruct (process_data _ _ _ _ _) as [[u|e] w']. }
      cbv zeta in Hrun. destruct Hrun as (Hnoexit & Huncaught & Hdry).
      destruct DRY_RUN; cbn [negb].
      * split; [|split; [|split; [|split; [|split]]]].
        -- split; [intros H; now destruct (Hnoexit 1) | tauto].
        -- split; [intros H; now destruct (Hnoexit 0)|].
           intros (_ & _ & Hmode & _). discriminate.
        -- intros code H. now destruct (Hnoexit code).
        -- intros H. now destruct H; apply Hdry.
        -- intros e _ _ Hmode. discriminate.
        -- intros e He. exists s', df. repeat split. right.
           exact (Huncaught e He).
      * destruct (input_response env) as [response|e2] eqn:Hinput.
        -- destruct (String.eqb (PyStr.lower response) "yes") eqn:Hyes;
             cbn [negb fst snd].
           ++ split; [|split; [|split; [|split; [|split]]]].
              ** split; [intros H; now destruct (Hnoexit 1) | tauto].
              ** split; [intros H; now destruct (Hnoexit 0)|].
                 intros (_ & _ & _ & response' & Hr & Hno).
                 injection Hr as <-. congruence.
              ** intros code H. now destruct (Hnoexit code).
              ** intros _. repeat split; eauto.
              ** intros e _ _ _ He. discriminate.
              ** intros e He. exists s', df. repeat split. right.
                 exact (Huncaught e He).
           ++ split; [|split; [|split; [|split; [|split]]]].
              ** split; [discriminate | tauto].
              ** split; [|reflexivity]. intros _. repeat split; eauto.
              ** intros code _. split; reflexivity.
              ** intros H. now destruct H.
              ** intros e _ _ _ He. discriminate.
              ** discriminate.
        -- cbn [fst snd]. split; [|split; [|split; [|split; [|split]]]].
           ++ split; [discriminate | tauto].
           ++ split; [discriminate|].
              intros (_ & _ & _ & response & Hr & _). discriminate.
           ++ discriminate.
           ++ intros H. now destruct H.
           ++ intros e _ _ _ He. injection He as <-. repeat split.
           ++ intros e He. injection He as <-. exists s', df.
              repeat split. left. split; reflexivity.
    + cbn [fst snd]. split; [|split; [|split; [|split; [|split]]]].
      * split; [|reflexivity]. intros _ [_ [df Hdf]]. discriminate.
      * split; [discriminate|]. intros (_ & [df Hdf] & _). discriminate.
      * intros code _. split; reflexivity.
      * intros H. now destruct H.
      * intros e _ [df Hdf]. discriminate.
      * discriminate.
  - cbn [fst snd]. split; [|split; [|split; [|split; [|split]]]].
    + split; [|reflexivity]. intros _ [[s'' Hs] _]. discriminate.
    + split; [discriminate|]. intros ([s'' Hs] & _). discriminate.
    + intros code _. split; reflexivity.
    + intros H. now destruct H.
    + intros e [s'' Hs]. discriminate.
    + discriminate.
Qed.

Example main_cannot_connect :
  main ref_ipaddress ref_netbox false
    {| api_status := fun s => (Raise OtherException, s);
       read_excel := Ok sample_export; input_response := Ok "yes" |}
    empty_store
  = (Exit 1, init_importer empty_store).
Proof. reflexivity. Qed.

Example main_answers :
  map (fun answer =>
         fst (main ref_ipaddress ref_netbox false
                {| api_status := fun s => (Ok tt, s);
                   read_excel := Ok sample_export;
                   input_response := answer |}
                empty_store))
      [Ok "yes"; Ok "YES"; Ok " yes"; Ok "y"; Ok ""; Raise OtherException]
  = [Returned; Returned; Exit 0; Exit 0; Exit 0; Uncaught OtherException].
Proof. reflexivity. Qed.

(** ** What an apply run leaves in NetBox *)

(** The number of calls of the log that [p] holds of. *)
Definition count_calls (p : Call -> bool) (l : list Call) : nat :=
  length (List.filter p l).

Definition is_prefixes_get (c : Call) : bool :=
  match c with PrefixesGet _ => true | _ => false end.

Definition is_prefixes_create (c : Call) : bool :=
  match c with PrefixesCreate _ _ _ => true | _ => false end.

Definition is_ip_addresses_get (c : Call) : bool :=
  match c with IpAddressesGet _ => true | _ => false end.

Definition is_ip_addresses_create (c : Call) : bool :=
  match c with IpAddressesCreate _ _ _ _ => true | _ => false end.

Lemma count_calls_app (p : Call -> bool) (l1 l2 : list Call) :
  count_calls p (l1 ++ l2) = count_calls p l1 + count_calls p l2.
Proof. unfold count_calls. now rewrite List.filter_app, length_app. Qed.

Section Summary.

Context {S R : Type}.
Variable ipaddress : IpAddressModule.
Variable pynetbox : NetBox S R.
Hypothesis contract : LookupBeforeWrite pynetbox.

(** In apply mode the counters tell the calls: one [get] per counted
    intent, one [create] per created record. *)
Lemma reconcile_counters_match_calls (intents : list Intent) (w : Importer S) :
  exists appended,
    let st := stats w in
    let st' := stats (snd (reconcile ipaddress pynetbox false intents w)) in
    calls (snd (reconcile ipaddress pynetbox false intents w))
    = (calls w ++ appended)%list
    /\ prefixes_created st'
       = prefixes_created st + count_calls is_prefixes_create appended
    /\ prefixes_created st' + prefixes_skipped st'
       = prefixes_created st + prefixes_skipped st
         + count_calls is_prefixes_get appended
    /\ ips_created st'
       = ips_created st + count_calls is_ip_addresses_create appended
    /\ ips_created st' + ips_skipped st'
       = ips_created st + ips_skipped st
         + count_calls is_ip_addresses_get appended.
Proof.
  revert w. induction intents as [|i rest IH]; intros w.
  - exists []. cbn. rewrite app_nil_r. repeat split; lia.
  - rewrite reconcile_cons.
    destruct (apply_intent_under_contract ipaddress pynetbox contract i w)
      as (l1 & H1 & Hi).
    remember (snd (apply_intent ipaddress pynetbox false i w)) as w1 eqn:Hw1.
    clear Hw1. destruct (IH w1) as (l2 & H2 & Hpc & Hpg & Hic & Hig).
    exists (l1 ++ l2)%list. cbv zeta. rewrite H2, H1, <- app_assoc.
    split; [reflexivity|]. rewrite !count_calls_app.
    destruct i as [cidr description|address hostname description mac owner device port note].
    + destruct Hi as [(_ & -> & Hst)|(_ & (stored & ->) & Hst)];
        rewrite Hst in Hpc, Hpg, Hic, Hig; cbn in Hpc, Hpg, Hic, Hig |- *;
        repeat split; lia.
    + destruct (ip_address ipaddress address) as [v|].
      * destruct Hi as [(_ & -> & Hst)|(_ & (dns_name & stored & ->) & Hst)];
          rewrite Hst in Hpc, Hpg, Hic, Hig; cbn in Hpc, Hpg, Hic, Hig |- *;
          repeat split; lia.
      * destruct Hi as [-> Hst]. rewrite Hst in Hpc, Hpg, Hic, Hig.
        cbn. repeat split; lia.
Qed.

End Summary.

(** X10. With a client that keeps the lookup-before-write contract, after
    [process_data] in apply mode [get] finds every subnet and every valid
    address of the export (up to its first row without cells), and it still
    finds everything it found before the run: the import is complete and
    removes nothing. *)
Theorem apply_run_stores_the_export {S R : Type} (ipaddress : IpAddressModule)
    (pynetbox : NetBox S R) (df : DataFrame) (w : Importer S) :
  LookupBeforeWrite pynetbox ->
  let after := nb (snd (process_data ipaddress pynetbox false df w)) in
  (forall cidr description,
     In (CreateSubnet cidr description) (parse ipaddress df) ->
     prefix_found pynetbox cidr after)
  /\ (forall address hostname description mac owner device port note v,
        In (CreateAddress address hostname description mac owner device port
              note) (parse ipaddress df) ->
        ip_address ipaddress address = Some v ->
        address_found pynetbox (ip_with_mask address v) after)
  /\ (forall prefix, prefix_found pynetbox prefix (nb w) ->
                     prefix_found pynetbox prefix after)
  /\ (forall address, address_found pynetbox address (nb w) ->
                      address_found pynetbox address after).
Proof.
  intros contract after. unfold after. rewrite process_data_parse.
  split; [|split; [|split]].
  - intros cidr description Hin.
    exact (reconcile_stores_all ipaddress pynetbox contract _ w _ Hin).
  - intros address hostname description mac owner device port note v Hin Hv.
    exact (reconcile_stores_all ipaddress pynetbox contract _ w _ Hin v Hv).
  - apply (reconcile_keeps_found ipaddress pynetbox contract).
  - apply (reconcile_keeps_found ipaddress pynetbox contract).
Qed.

(** The sample export against the empty reference store: its prefix and
    its address are found afterwards. *)
Lemma apply_run_stores_the_export_witness :
  let after :=
    nb (snd (process_data ref_ipaddress ref_netbox false sample_export
               (init_importer empty_store))) in
  prefix_found ref_netbox "10.1.8.0/24" after
  /\ address_found ref_netbox "10.1.8.5/32" after.
Proof.
  pose proof (apply_run_stores_the_export ref_ipaddress ref_netbox
                sample_export (init_importer empty_store) ref_netbox_contract)
    as (Hprefix & Haddress & _).
  split.
  - apply (Hprefix "10.1.8.0/24" "CTRL-W27-04-LANtime (vlan: 108)").
    left. reflexivity.
  - apply (Haddress "10.1.8.5" (VStr "host-a") (VStr "Server A") (VStr "")
             (VStr "") (VStr "") (VStr "") (VStr "") V4).
    + right. left. reflexivity.
    + reflexivity.
Defined.

(** X11. With a client that keeps the lookup-before-write contract, the
    summary of an apply run tells the calls it issued: [prefixes_created]
    grows by the number of [prefixes.create] calls and [prefixes_created]
    plus [prefixes_skipped] by the number of [prefixes.get] calls, and the
    same for [ips_created], [ips_skipped] and the [ip_addresses] calls. *)
Theorem counters_match_calls {S R : Type} (ipaddress : IpAddressModule)
    (pynetbox : NetBox S R) (df : DataFrame) (w : Importer S) :
  LookupBeforeWrite pynetbox ->
  exists appended,
    let st := stats w in
    let st' := stats (snd (process_data ipaddress pynetbox false df w)) in
    calls (snd (process_data ipaddress pynetbox false df w))
    = (calls w ++ appended)%list
    /\ prefixes_created st'
       = prefixes_created st + count_calls is_prefixes_create appended
    /\ prefixes_created st' + prefixes_skipped st'
       = prefixes_created st + prefixes_skipped st
         + count_calls is_prefixes_get appended
    /\ ips_created st'
       = ips_created st + count_calls is_ip_addresses_create appended
    /\ ips_created st' + ips_skipped st'
       = ips_created st + ips_skipped st
         + count_calls is_ip_addresses_get appended.
Proof.
  intros contract. rewrite process_data_parse.
  now apply reconcile_counters_match_calls.
Qed.

(** A repeated prefix against the empty reference store. *)
Lemma counters_match_calls_witness :
  exists appended,
    let st' :=
      stats (snd (process_data ref_ipaddress ref_netbox false
                    [[VStr "10.1.8.0/24 - first"]; [VStr "10.1.8.5"];
                     [VStr "10.1.8.0/24 - again"]]
                    (init_importer empty_store))) in
    calls (snd (process_data ref_ipaddress ref_netbox false
                  [[VStr "10.1.8.0/24 - first"]; [VStr "10.1.8.5"];
                   [VStr "10.1.8.0/24 - again"]]
                  (init_importer empty_store)))
    = ([] ++ appended)%list
    /\ prefixes_created st' = 0 + count_calls is_prefixes_create appended
    /\ prefixes_created st' + prefixes_skipped st'
       = 0 + 0 + count_calls is_prefixes_get appended
    /\ ips_created st' = 0 + count_calls is_ip_addresses_create appended
    /\ ips_created st' + ips_skipped st'
       = 0 + 0 + count_calls is_ip_addresses_get appended.
Proof.
  exact (counters_match_calls ref_ipaddress ref_netbox
           [[VStr "10.1.8.0/24 - first"]; [VStr "10.1.8.5"];
            [VStr "10.1.8.0/24 - again"]]
           (init_importer empty_store) ref_netbox_contract).
Defined.

(** ** Short texts are sent whole *)

Lemma slice_to_short (n : nat) (s : string) :
  String.length s <= n -> PyStr.slice_to n s = s.
Proof.
  revert s. induction n as [|n IH]; intros [|c s] Hlen; try reflexivity.
  - cbn [String.length] in Hlen. lia.
  - change (PyStr.slice_to (Datatypes.S n) (String c s))
      with (String c (PyStr.slice_to n s)).
    cbn [String.length] in Hlen. rewrite IH by lia. reflexivity.
Qed.

(** X12. In apply mode a text of at most 200 characters reaches NetBox
    unchanged: for a prefix not yet there, the description of the
    [prefixes.create] call is the subnet description itself; for a valid
    address not yet there, the description of the [ip_addresses.create] call
    is the joined text itself, and its [dns_name] is the hostname cell, or
    the empty string when that cell is null. *)
Theorem short_texts_are_sent_whole {S R : Type} (ipaddress : IpAddressModule)
    (pynetbox : NetBox S R) (ip : string)
    (hostname description mac owner device port note : PyVal)
    (subnet subnet_description : string) (w : Importer S) (v : IPVersion) :
  (fst (prefixes_get pynetbox subnet (nb w)) = Ok None ->
   String.length subnet_description <= 200 ->
   calls (snd (create_prefix pynetbox false subnet subnet_description w))
   = (calls w ++ [PrefixesGet subnet;
                  PrefixesCreate subnet subnet_description "active"])%list)
  /\ (ip_address ipaddress ip = Some v ->
      fst (ip_addresses_get pynetbox (ip_with_mask ip v) (nb w)) = Ok None ->
      String.length (full_description description note) <= 200 ->
      calls (snd (create_ip_address ipaddress pynetbox false ip hostname
                    description mac owner device port note w))
      = (calls w
         ++ [IpAddressesGet (ip_with_mask ip v);
             IpAddressesCreate (ip_with_mask ip v)
               (match hostname with
                | VNaN | VNone => VStr ""
                | _ => hostname
                end)
               (full_description description note) "active"])%list).
Proof.
  split.
  - intros Hget Hlen.
    destruct (prefixes_get pynetbox subnet (nb w)) as [got s1] eqn:Hcall.
    cbn [fst] in Hget. subst got.
    rewrite (create_prefix_new pynetbox _ subnet_description _ _ Hcall).
    cbv zeta. rewrite slice_to_guarded, (slice_to_short _ _ Hlen).
    now destruct (prefixes_create _ _ _ _ _) as [[r|e] s2].
  - intros Hv Hget Hlen.
    destruct (ip_addresses_get pynetbox (ip_with_mask ip v) (nb w))
      as [got s1] eqn:Hcall.
    cbn [fst] in Hget. subst got.
    rewrite (create_ip_address_new ipaddress pynetbox _ hostname description
               mac owner device port note _ _ _ Hv Hcall).
    cbv zeta. rewrite slice_to_guarded, (slice_to_short _ _ Hlen).
    assert (Hdns : (if pd_notna hostname then hostname else VStr "")
                   = match hostname with
                     | VNaN | VNone => VStr ""
                     | _ => hostname
                     end) by now destruct hostname.
    rewrite Hdns.
    now destruct (ip_addresses_create _ _ _ _ _ _) as [[r|e] s2].
Qed.

(** A short description and an empty hostname cell, against the empty
    reference store. *)
Lemma short_texts_are_sent_whole_witness :
  calls (snd (create_prefix ref_netbox false "10.1.8.0/24" "lab network"
                (init_importer empty_store)))
  = [PrefixesGet "10.1.8.0/24";
     PrefixesCreate "10.1.8.0/24" "lab network" "active"]
  /\ calls (snd (create_ip_address ref_ipaddress ref_netbox false "10.1.8.5"
                   VNaN (VStr "Server A") VNaN VNaN VNaN VNaN VNaN
                   (init_importer empty_store)))
     = [IpAddressesGet "10.1.8.5/32";
        IpAddressesCreate "10.1.8.5/32" (VStr "") "Server A" "active"].
Proof.
  pose proof (short_texts_are_sent_whole ref_ipaddress ref_netbox "10.1.8.5"
                VNaN (VStr "Server A") VNaN VNaN VNaN VNaN VNaN
                "10.1.8.0/24" "lab network" (init_importer empty_store) V4)
    as [Hprefix Haddress].
  split.
  - apply Hprefix; [reflexivity | vm_compute; lia].
  - apply Haddress; [reflexivity | reflexivity | vm_compute; lia].
Defined.
